(** * The activity log of the admin panel: query variables, filter
      reconciliation and rendering

    A shallow embedding of
    [components/admin-panel/sections/ActivityLog/index.js]: the derivation of
    the GraphQL variables from the router's query ([getQueryVariables]), the
    reconciliation of the [type] filter with the loaded account
    ([getChangesThatRequireUpdate], [handleUpdateFilters] and the effect that
    calls them), and the choice of what the component renders.

    JavaScript objects used as string-keyed maps are [gmap string value];
    numbers are the integral doubles [parseInt] can produce. *)

From Stdlib Require Import ZArith Ascii String.
From stdpp Require Import gmap strings list fin_maps.

Local Open Scope Z_scope.

(** ** JavaScript values *)

(** The values a query object holds: the router delivers strings (and arrays
    of strings for a repeated parameter), the component adds [null] to clear a
    parameter, and a missing property reads as [undefined]. *)
Inductive value :=
  | VUndefined
  | VNull
  | VString (s : string)
  | VArray (items : list string).

#[global] Instance value_eq_dec : EqDecision value.
Proof. solve_decision. Defined.

(** A plain object with string keys. *)
Abbreviation object := (gmap string value).

(** Property access [o.k]: a missing property is [undefined]. *)
Definition get (o : object) (k : string) : value := default VUndefined (o !! k).

(** [ToBoolean] on these values: [undefined], [null] and the empty string are
    falsy, every other string and every array (the empty one too) is truthy. *)
Definition truthy (v : value) : bool :=
  match v with
  | VUndefined | VNull => false
  | VString s => negb (String.eqb s "")
  | VArray _ => true
  end.

(** [v === s] for a string literal [s]. *)
Definition strictEqualsString (v : value) (s : string) : bool :=
  match v with
  | VString t => String.eqb t s
  | _ => false
  end.

(** [Array.prototype.join(",")] on strings, which is what [ToString] does to
    an array. *)
Fixpoint join (sep : string) (l : list string) : string :=
  match l with
  | [] => ""
  | [x] => x
  | x :: rest => x +:+ sep +:+ join sep rest
  end.

Definition ToString (v : value) : string :=
  match v with
  | VUndefined => "undefined"
  | VNull => "null"
  | VString s => s
  | VArray items => join "," items
  end.

(** [s.split(c)] for a one-character separator [c]: never empty, the pieces
    in order, an empty piece between two adjacent separators. *)
Fixpoint split (sep : ascii) (s : string) : list string :=
  match s with
  | EmptyString => [EmptyString]
  | String c rest =>
      if Ascii.eqb c sep then EmptyString :: split sep rest
      else match split sep rest with
           | [] => [String c EmptyString]
           | piece :: pieces => String c piece :: pieces
           end
  end.

(** ** Numbers *)

(** The numbers [parseInt] returns: [NaN], an infinity, or an integral double.
    The sign of zero is not recorded: the only consumer is [|| 0], which
    replaces either zero by [+0]. *)
Inductive number :=
  | NaN
  | Infinity (negative : bool)
  | Finite (z : Z).

#[global] Instance number_eq_dec : EqDecision number.
Proof. solve_decision. Defined.

(** The Number value of a non-negative mathematical integer: exact below
    2^53, otherwise rounded to 53 significant bits, ties to even, and
    [Infinity] from 2^1024 on. (Beyond 20 significant decimal digits
    ECMAScript lets an engine read the further digits as zeros before
    rounding; the statements below that give a value stay under 2^53.) *)
Definition roundToDouble (m : Z) : number :=
  if m <? 2 ^ 53 then Finite m
  else
    let e := Z.log2 m - 52 in
    let q := Z.shiftr m e in
    let r := Z.land m (Z.ones e) in
    let half := 2 ^ (e - 1) in
    let q' := if (half <? r) || ((r =? half) && Z.odd q) then q + 1 else q in
    let v := Z.shiftl q' e in
    if 2 ^ 1024 <=? v then Infinity false else Finite v.

Definition negate (n : number) : number :=
  match n with
  | NaN => NaN
  | Infinity b => Infinity (negb b)
  | Finite z => Finite (- z)
  end.

(** [ToBoolean] on a number: zero and [NaN] are falsy. *)
Definition numberTruthy (n : number) : bool :=
  match n with
  | NaN => false
  | Infinity _ => true
  | Finite z => negb (z =? 0)
  end.

(** [n || 0] *)
Definition orZero (n : number) : number := if numberTruthy n then n else Finite 0.

(** ** parseInt *)

(** A [string] is a sequence of code units below 256. Of the code units
    [parseInt] skips as white space these are TAB, LF, VT, FF, CR, SP and
    NBSP; the others (U+1680, U+2000 to U+200A, U+2028, U+2029, U+202F,
    U+205F, U+3000, U+FEFF) have no counterpart in [string]. *)
Definition isStrWhiteSpaceChar (c : ascii) : bool :=
  let n := Z.of_N (N_of_ascii c) in
  ((9 <=? n) && (n <=? 13)) || (n =? 32) || (n =? 160).

Fixpoint trimStart (s : string) : string :=
  match s with
  | EmptyString => EmptyString
  | String c rest => if isStrWhiteSpaceChar c then trimStart rest else s
  end.

(** The value of a character as a digit, letters counting from 10 in either
    case. *)
Definition digitValue (c : ascii) : option Z :=
  let n := Z.of_N (N_of_ascii c) in
  if (48 <=? n) && (n <=? 57) then Some (n - 48)
  else if (97 <=? n) && (n <=? 122) then Some (n - 87)
  else if (65 <=? n) && (n <=? 90) then Some (n - 55)
  else None.

Definition radixDigit (R : Z) (c : ascii) : option Z :=
  match digitValue c with
  | Some d => if d <? R then Some d else None
  | None => None
  end.

(** The mathematical integer denoted by the longest prefix of radix-[R]
    digits, starting from [acc]; [None] as long as no digit was read. *)
Fixpoint parseDigits (R : Z) (acc : option Z) (s : string) : option Z :=
  match s with
  | EmptyString => acc
  | String c rest =>
      match radixDigit R c with
      | Some d => parseDigits R (Some (R * default 0 acc + d)) rest
      | None => acc
      end
  end.

(** The sign prefix: [(negative, rest)]. *)
Definition stripSign (s : string) : bool * string :=
  match s with
  | String "-" rest => (true, rest)
  | String "+" rest => (false, rest)
  | _ => (false, s)
  end.

(** With no radix argument a leading [0x] or [0X] selects radix 16,
    anything else radix 10. *)
Definition stripPrefix (s : string) : Z * string :=
  match s with
  | String "0" (String "x" rest) => (16, rest)
  | String "0" (String "X" rest) => (16, rest)
  | _ => (10, s)
  end.

(** [parseInt(v)], called with one argument. *)
Definition parseInt (v : value) : number :=
  let inputString := ToString v in
  let '(negative, unsigned) := stripSign (trimStart inputString) in
  let '(R, digits) := stripPrefix unsigned in
  match parseDigits R None digits with
  | None => NaN
  | Some mathInt =>
      if negative then negate (roundToDouble mathInt) else roundToDouble mathInt
  end.

(** ** lodash and object spread *)

(** [omit(o, paths)]: a copy of [o] without the listed keys. *)
Definition omit (o : object) (paths : list string) : object :=
  foldr delete o paths.

(** [omitBy(o, predicate)]: a copy of [o] without the properties whose value
    satisfies [predicate]. *)
Definition omitBy (o : object) (predicate : value -> bool) : object :=
  filter (fun kv => predicate kv.2 = false) o.

(** [isEmpty(o)] on a plain object: it has no own property. *)
Definition isEmpty (o : object) : bool := bool_decide (o = ∅).

(** [{ ...a, ...b }]: the properties of [b] win. *)
Definition spread (a b : object) : object := b ∪ a.

(** ** The records the component handles *)

(** What [parseDateInterval] returns. *)
Record DateInterval (Date : Type) := { from : Date; to : Date }.
Arguments from {Date} _.
Arguments to {Date} _.

(** An [AccountReferenceInput]: [{ slug }]. *)
Record AccountReferenceInput := { slug : string }.

#[global] Instance AccountReferenceInput_eq_dec : EqDecision AccountReferenceInput.
Proof. solve_decision. Defined.

(** [filteredAccounts] is either the one object built from [accountSlug] or
    the array built from the [account] parameter. *)
Inductive filteredAccounts :=
  | OneAccount (reference : AccountReferenceInput)
  | ManyAccounts (references : list AccountReferenceInput).

(** The [account] selection of the activity log query. *)
Module Account.
Record t := {
  id : string;
  name : string;
  slug : string;
  legacyId : Z;
  isHost : bool;
  type : string;
  childrenAccounts : option Z
}.
End Account.

(** The variables of [AccountActivityLog]. A variable declared with [let] and
    never assigned is [undefined], here [None]. *)
Module Variables.
Record t (Date FilterValues : Type) := {
  accountSlug : string;
  dateFrom : Date;
  dateTo : Date;
  limit : Z;
  offset : number;
  type : FilterValues;
  account : filteredAccounts;
  includeChildrenAccounts : option bool;
  excludeParentAccount : option bool;
  includeHostedAccounts : option bool
}.
Arguments accountSlug {_ _} _.
Arguments dateFrom {_ _} _.
Arguments dateTo {_ _} _.
Arguments limit {_ _} _.
Arguments offset {_ _} _.
Arguments type {_ _} _.
Arguments account {_ _} _.
Arguments includeChildrenAccounts {_ _} _.
Arguments excludeParentAccount {_ _} _.
Arguments includeHostedAccounts {_ _} _.
End Variables.

(** What a function returns: a value, or the [TypeError] of calling a method
    the receiver does not have. *)
Inductive completion (A : Type) :=
  | Normal (a : A)
  | TypeError.
Arguments Normal {A} a.
Arguments TypeError {A}.

(** The part of the router the component reads. *)
Module Router.
Record t := { asPath : string; query : object }.
End Router.

(** The argument of [router.push]. *)
Module Url.
Record t := { pathname : string; query : object }.
End Url.

(** The [activities] connection of the response. [totalCount] and [nodes]
    may be [null]. *)
Module Activities.
Record t (Activity : Type) := {
  offset : Z;
  limit : Z;
  totalCount : option Z;
  nodes : option (list Activity)
}.
Arguments offset {_} _.
Arguments limit {_} _.
Arguments totalCount {_} _.
Arguments nodes {_} _.
End Activities.

(** The [data] of the response. *)
Module Data.
Record t (Activity : Type) := {
  account : option Account.t;
  activities : option (Activities.t Activity)
}.
Arguments account {_} _.
Arguments activities {_} _.
End Data.

(** What [useQuery] returns. *)
Module QueryResult.
Record t (Activity ApolloError : Type) := {
  data : option (Data.t Activity);
  loading : bool;
  error : option ApolloError
}.
Arguments data {_ _} _.
Arguments loading {_ _} _.
Arguments error {_ _} _.
End QueryResult.

(** The props of [<Pagination>]. *)
Module Pagination.
Record t := {
  offset : number;
  total : Z;
  limit : Z;
  ignoredQueryParams : list string
}.
End Pagination.

(** The props of [<ActivityFilters>] that are data; [onChange] is
    [onFiltersChange] below. *)
Module ActivityFilters.
Record t := { filters : object; account : option Account.t }.
End ActivityFilters.

(** The alternatives of the conditional that renders the result. *)
Inductive Body (Activity ApolloError : Type) :=
  | MessageBoxGraphqlError (error : ApolloError)
  | LoadingPlaceholder
  | MustBeAdmin
  | NoActivityYet
  | ActivityLogContainer (nodes : list Activity).
Arguments MessageBoxGraphqlError {_ _} _.
Arguments LoadingPlaceholder {_ _}.
Arguments MustBeAdmin {_ _}.
Arguments NoActivityYet {_ _}.
Arguments ActivityLogContainer {_ _} _.

(** The rendered tree: the filters, the body, and the pagination when it is
    rendered. *)
Module View.
Record t (Activity ApolloError : Type) := {
  filters : ActivityFilters.t;
  body : Body Activity ApolloError;
  pagination : option Pagination.t
}.
Arguments filters {_ _} _.
Arguments body {_ _} _.
Arguments pagination {_ _} _.
End View.

(** ** The component *)

Definition ACTIVITY_LIMIT : Z := 10.

(** [value => !value], the predicate [handleUpdateFilters] gives [omitBy]. *)
Definition isFalsy (v : value) : bool := negb (truthy v).

Section Component.
Context {Date FilterValues Activity ApolloError : Type}.

(** The helpers imported from modules that are not part of these sources:
    [parseDateInterval] (lib/date-utils) and the two functions of
    ./ActivityTypeFilter. They are parameters of the development. *)
Variable parseDateInterval : value -> DateInterval Date.
Variable getActivityTypeFilterValuesFromKey : value -> FilterValues.
Variable isSupportedActivityTypeFilter : Account.t -> value -> bool.

Definition getQueryVariables (accountSlug : string) (router : Router.t)
  : completion (Variables.t Date FilterValues) :=
  let routerQuery := omit (Router.query router) ["slug"; "section"] in
  let offset := orZero (parseInt (get routerQuery "offset")) in
  let period := get routerQuery "period" in
  let type := get routerQuery "type" in
  let account := get routerQuery "account" in
  let interval := parseDateInterval period in
  let variables filteredAccounts includeChildrenAccounts
                includeHostedAccounts excludeParentAccount :=
    {| Variables.accountSlug := accountSlug;
       Variables.dateFrom := from interval;
       Variables.dateTo := to interval;
       Variables.limit := ACTIVITY_LIMIT;
       Variables.offset := offset;
       Variables.type := getActivityTypeFilterValuesFromKey type;
       Variables.account := filteredAccounts;
       Variables.includeChildrenAccounts := includeChildrenAccounts;
       Variables.excludeParentAccount := excludeParentAccount;
       Variables.includeHostedAccounts := includeHostedAccounts |} in
  let target := OneAccount {| slug := accountSlug |} in
  if strictEqualsString account "__CHILDREN_ACCOUNTS__" then
    Normal (variables target (Some true) None (Some true))
  else if strictEqualsString account "__HOSTED_ACCOUNTS__" then
    Normal (variables target None (Some true) None)
  else if truthy account then
    match account with
    | VString s =>
        let selected := (fun slug => {| slug := slug |}) <$> split "," s in
        Normal (variables (ManyAccounts selected) (Some true) None None)
    | _ => TypeError
    end
  else
    Normal (variables target None None None).

(** [account] is [data?.account]: [None] when it is [null] or [undefined]. *)
Definition getChangesThatRequireUpdate (account : option Account.t)
    (queryParams : object) : object :=
  let changes : object := ∅ in
  match account with
  | None => changes
  | Some account =>
      if negb (isSupportedActivityTypeFilter account (get queryParams "type"))
      then <["type" := VNull]> changes
      else changes
  end.

(** [routerQuery], computed at the top of every render. *)
Definition routerQuery (router : Router.t) : object :=
  omit (Router.query router) ["slug"; "section"].

(** [handleUpdateFilters]: the argument it gives [router.push]. *)
Definition handleUpdateFilters (router : Router.t) (queryParams : object)
  : Url.t :=
  let pathname := default ""%string (head (split "?" (Router.asPath router))) in
  {| Url.pathname := pathname;
     Url.query := omitBy (spread (routerQuery router) queryParams) isFalsy |}.

(** The body of the effect that resets an unsupported type: the navigation
    it issues, if any. Its dependency [routerQuery] is a new object on every
    render, so it runs after every render. *)
Definition resetTypeEffect (router : Router.t)
    (data : option (Data.t Activity)) : option Url.t :=
  let changesThatRequireUpdate :=
    getChangesThatRequireUpdate (data ≫= Data.account) (routerQuery router) in
  if negb (isEmpty changesThatRequireUpdate) then
    Some (handleUpdateFilters router
            (spread (routerQuery router) changesThatRequireUpdate))
  else None.

(** The navigations of successive renders with the same data: after each
    one the router is [push router url] ([push] stands for the router's own
    handling of [router.push], which is not this component's), until a
    render issues none or [fuel] is used up. *)
Fixpoint navigations (push : Router.t -> Url.t -> Router.t) (fuel : nat)
    (router : Router.t) (data : option (Data.t Activity)) : list Url.t :=
  match fuel with
  | O => []
  | S fuel =>
      match resetTypeEffect router data with
      | Some url => url :: navigations push fuel (push router url) data
      | None => []
      end
  end.

(** [onChange] of [<ActivityFilters>]. *)
Definition onFiltersChange (router : Router.t) (queryParams : object)
  : Url.t :=
  handleUpdateFilters router (<["offset" := VNull]> queryParams).

(** [data?.activities?.nodes] *)
Definition activityNodes (data : option (Data.t Activity))
  : option (list Activity) :=
  (data ≫= Data.activities) ≫= Activities.nodes.

(** [data?.activities?.totalCount] *)
Definition activityTotalCount (data : option (Data.t Activity)) : option Z :=
  (data ≫= Data.activities) ≫= Activities.totalCount.

(** The nested conditional of the returned tree. *)
Definition renderBody (result : QueryResult.t Activity ApolloError)
  : Body Activity ApolloError :=
  match QueryResult.error result with
  | Some error => MessageBoxGraphqlError error
  | None =>
      if QueryResult.loading result then LoadingPlaceholder
      else
        match activityNodes (QueryResult.data result) with
        | None => MustBeAdmin
        | Some nodes =>
            match activityTotalCount (QueryResult.data result) with
            | None | Some 0 => NoActivityYet
            | Some _ => ActivityLogContainer nodes
            end
        end
  end.

(** [data?.activities?.totalCount > ACTIVITY_LIMIT && <Pagination .../>] *)
Definition renderPagination (router : Router.t)
    (result : QueryResult.t Activity ApolloError) : option Pagination.t :=
  match activityTotalCount (QueryResult.data result) with
  | Some totalCount =>
      if ACTIVITY_LIMIT <? totalCount then
        Some {| Pagination.offset :=
                  orZero (parseInt (get (routerQuery router) "offset"));
                Pagination.total := totalCount;
                Pagination.limit := ACTIVITY_LIMIT;
                Pagination.ignoredQueryParams := ["slug"; "section"]%string |}
      else None
  | None => None
  end.

(** What one call of the component amounts to, when it returns: the
    variables it hands to [useQuery], the tree it returns, and the navigation
    its effect issues after the render. These are all its interactions: it
    keeps no state and calls neither [refetch] nor [fetchMore]. *)
Record Render := {
  variables : Variables.t Date FilterValues;
  view : View.t Activity ApolloError;
  navigation : option Url.t
}.

(** The component. [getQueryVariables] is called while the argument of
    [useQuery] is built: when it throws, so does the component, before
    [useQuery] and the effect are reached, and neither a tree nor a
    navigation comes of the render. *)
Definition ActivityLog (accountSlug : string) (router : Router.t)
    (result : QueryResult.t Activity ApolloError) : completion Render :=
  match getQueryVariables accountSlug router with
  | TypeError => TypeError
  | Normal variables =>
      Normal
        {| variables := variables;
           view :=
             {| View.filters :=
                  {| ActivityFilters.filters := routerQuery router;
                     ActivityFilters.account :=
                       QueryResult.data result ≫= Data.account |};
                View.body := renderBody result;
                View.pagination := renderPagination router result |};
           navigation := resetTypeEffect router (QueryResult.data result) |}
  end.
End Component.

(** ** Reading a parameter as an integer *)

(** [c] occurs in [s]. *)
Fixpoint occurs (c : ascii) (s : string) : bool :=
  match s with
  | EmptyString => false
  | String d rest => Ascii.eqb d c || occurs c rest
  end.






(** ** Parts of the repository that are not among the sources *)

(** Modelled from the spec: the [Pagination] component is not among the
    sources. The spec has it show "3 pages" for a total of 25 at 10 per page:
    as many pages as it takes to show [total] items, [limit] at a time. *)
Definition totalPages (total limit : Z) : Z := (total + limit - 1) / limit.

(** ** Sample inputs *)

(** An interval parser that finds no bound and a type lookup that passes the
    key on, so that the derived variables can be computed on examples. *)
Definition unboundedInterval (period : value) : DateInterval (option string) :=
  {| from := None; to := None |}.

Definition typeKey (type : value) : value := type.

(** An individual, and a capability table in which the filter [HOST] needs a
    host account. *)
Definition individual : Account.t :=
  {| Account.id := "a1"; Account.name := "Ada"; Account.slug := "ada";
     Account.legacyId := 7; Account.isHost := false;
     Account.type := "INDIVIDUAL"; Account.childrenAccounts := None |}.

Definition hostOnly (account : Account.t) (selected : value) : bool :=
  negb (strictEqualsString selected "HOST") || Account.isHost account.


Definition loaded (account : Account.t) : option (Data.t unit) :=
  Some {| Data.account := Some account; Data.activities := None |}.

(** The parameters of a request for the host's activities, page 3, with the
    two route parameters. *)
Definition hostQuery : object :=
  {[ "type" := VString "HOST"; "offset" := VString "20";
     "slug" := VString "ada"; "section" := VString "activity-log" ]}.

(** The variables derived for the account [ada] when only [offset] and the
    account selection vary. *)
Definition variablesOf (offset : number) (account : filteredAccounts)
    (includeChildrenAccounts excludeParentAccount includeHostedAccounts
       : option bool)
  : Variables.t (option string) value :=
  {| Variables.accountSlug := "ada";
     Variables.dateFrom := None;
     Variables.dateTo := None;
     Variables.limit := 10;
     Variables.offset := offset;
     Variables.type := VUndefined;
     Variables.account := account;
     Variables.includeChildrenAccounts := includeChildrenAccounts;
     Variables.excludeParentAccount := excludeParentAccount;
     Variables.includeHostedAccounts := includeHostedAccounts |}.

(** A result with [totalCount] activities, none of them listed. *)
Definition resultWith (totalCount : Z) : QueryResult.t unit unit :=
  {| QueryResult.data :=
       Some {| Data.account := Some individual;
               Data.activities :=
                 Some {| Activities.offset := 0;
                         Activities.limit := 10;
                         Activities.totalCount := Some totalCount;
                         Activities.nodes := Some [] |} |};
     QueryResult.loading := false;
     QueryResult.error := None |}.

(** A router that takes what is pushed as its new path and query. *)
Definition pushUrl (router : Router.t) (url : Url.t) : Router.t :=
  {| Router.asPath := Url.pathname url; Router.query := Url.query url |}.

Definition routerAt (query : object) : Router.t :=
  {| Router.asPath := "/ada/admin/activity-log?type=HOST"; Router.query := query |}.

(** ** Counting *)

(** How many times [c] occurs in [s]. *)
Fixpoint countChar (c : ascii) (s : string) : nat :=
  match s with
  | EmptyString => O
  | String d rest =>
      if Ascii.eqb d c then S (countChar c rest) else countChar c rest
  end.

(** * The expense type filter *)

(** An option of the select: [{ label, value }]. *)
Module SelectOption.
Record t (Label : Type) := { label : Label; value : string }.
Arguments label {_} _.
Arguments value {_} _.
End SelectOption.

(** What an attribute of the [<StyledSelectFilter>] element holds: a string
    ([inputId]), an option ([value]), a list of options ([options]), the
    handler of a choice ([onChange]), or anything else the caller passes
    on. *)
Inductive attribute (Label Result Other : Type) :=
  | Text (s : string)
  | Selected (option : SelectOption.t Label)
  | Options (options : list (SelectOption.t Label))
  | Handler (handle : SelectOption.t Label -> Result)
  | Passed (x : Other).
Arguments Text {_ _ _} _.
Arguments Selected {_ _ _} _.
Arguments Options {_ _ _} _.
Arguments Handler {_ _ _} _.
Arguments Passed {_ _ _} _.

Section ExpenseTypes.
Context {Label Result Other : Type}.

(** [Object.keys(expenseTypes)], of lib/constants/expenseTypes, and
    [i18nExpenseType(intl, _)], of lib/i18n/expense: neither module is part
    of these sources. *)
Variable expenseTypes : list string.
Variable i18nExpenseType : string -> Label.

Definition getOption (value : string) : SelectOption.t Label :=
  {| SelectOption.label := i18nExpenseType value;
     SelectOption.value := value |}.

(** [value || 'ALL'], for the string prop [value] that may be missing. *)
Definition orAll (value : option string) : string :=
  match value with
  | Some s => if String.eqb s "" then "ALL" else s
  | None => "ALL"
  end.

(** The attributes of the element [ExpenseTypeFilter] returns. [props] is the
    rest of the destructuring, which keeps [onChange] and [value] for itself;
    spread last, it wins over the attributes written before it. *)
Definition ExpenseTypeFilter (onChange : string -> Result)
    (value : option string) (props : gmap string (attribute Label Result Other))
  : gmap string (attribute Label Result Other) :=
  let expenseTypeKeys := "ALL"%string :: expenseTypes in
  foldr delete props ["onChange"; "value"]%string
  ∪ {[ "inputId" := Text "expenses-type-filter";
       "onChange" := Handler (fun option => onChange (SelectOption.value option));
       "value" := Selected (getOption (orAll value));
       "options" := Options (getOption <$> expenseTypeKeys) ]}.
End ExpenseTypes.

(** * The fragments of the contribution flow *)

(** A selection of a GraphQL selection set: a field with its arguments (all
    of them integers here) and its own selection set, an inline fragment
    [... on T { }], or the spread [...Name] of a named fragment. *)
#[warnings="-register-all"]
Inductive selection :=
  | Field (name : string) (arguments : list (string * Z))
      (selectionSet : list selection)
  | InlineFragment (typeCondition : string) (selectionSet : list selection)
  | FragmentSpread (name : string).

(** [fragment Name on Type { ... }] *)
Module Fragment.
Record t := {
  name : string;
  typeCondition : string;
  selectionSet : list selection
}.
End Fragment.

(** A document: the fragment definitions it holds, in order. *)
Abbreviation Document := (list Fragment.t).

(** A field without arguments or selection set. *)
Definition scalar (name : string) : selection := Field name [] [].

(** A field without arguments, with a selection set. *)
Definition object_ (name : string) (selectionSet : list selection)
  : selection :=
  Field name [] selectionSet.

(** Modelled from the spec: [gqlV2], of lib/graphql/helpers, is not among the
    sources. The spec has the fragments "composed by textual inclusion (leaf
    fragments embedded into larger ones)": the document of a template holds
    the definitions written in it, then those of each document interpolated
    after them. *)
Definition gqlV2 (written : list Fragment.t) (interpolated : list Document)
  : Document :=
  written ++ concat interpolated.

Definition contributionFlowHostFieldsFragment : Document :=
  gqlV2
    [ {| Fragment.name := "ContributionFlowHostFields";
         Fragment.typeCondition := "Host";
         Fragment.selectionSet :=
           [ scalar "id"; scalar "legacyId"; scalar "slug"; scalar "name";
             scalar "settings"; scalar "contributionPolicy";
             object_ "location" [scalar "id"; scalar "country"];
             scalar "paypalClientId"; scalar "supportedPaymentMethods";
             object_ "payoutMethods"
               [scalar "id"; scalar "name"; scalar "data"; scalar "type"] ] |} ]
    [].

Definition contributionFlowAccountFieldsFragment : Document :=
  gqlV2
    [ {| Fragment.name := "ContributionFlowAccountFields";
         Fragment.typeCondition := "Account";
         Fragment.selectionSet :=
           [ scalar "id"; scalar "legacyId"; scalar "slug"; scalar "type";
             scalar "name"; scalar "currency"; scalar "settings";
             scalar "twitterHandle"; scalar "description";
             Field "imageUrl" [("height"%string, 192)] [];
             scalar "isHost"; scalar "isActive"; scalar "settings";
             object_ "location" [scalar "id"; scalar "country"];
             object_ "features"
               [scalar "id"; scalar "RECEIVE_FINANCIAL_CONTRIBUTIONS"];
             InlineFragment "Organization"
               [ scalar "platformFeePercent";
                 scalar "platformContributionAvailable";
                 object_ "host"
                   [scalar "id"; FragmentSpread "ContributionFlowHostFields"] ];
             InlineFragment "AccountWithContributions"
               [ scalar "contributionPolicy"; scalar "platformFeePercent";
                 scalar "platformContributionAvailable";
                 Field "contributors" [("limit"%string, 6)]
                   [ scalar "totalCount";
                     object_ "nodes"
                       [ scalar "id"; scalar "name"; scalar "image";
                         scalar "collectiveSlug" ] ] ];
             InlineFragment "AccountWithHost"
               [ scalar "hostFeePercent";
                 object_ "host"
                   [scalar "id"; FragmentSpread "ContributionFlowHostFields"] ];
             InlineFragment "AccountWithParent"
               [ object_ "parent"
                   [ scalar "id"; scalar "slug"; scalar "settings";
                     object_ "location" [scalar "id"; scalar "country"];
                     InlineFragment "AccountWithContributions"
                       [scalar "contributionPolicy"] ] ];
             InlineFragment "Event" [scalar "endsAt"] ] |} ]
    [contributionFlowHostFieldsFragment].

Definition orderSuccessHostFragment : Document :=
  gqlV2
    [ {| Fragment.name := "OrderSuccessHostFragment";
         Fragment.typeCondition := "Host";
         Fragment.selectionSet :=
           [ scalar "id"; scalar "slug"; scalar "settings";
             object_ "bankAccount"
               [scalar "id"; scalar "name"; scalar "data"; scalar "type"] ] |} ]
    [].

Definition orderSuccessFragment : Document :=
  gqlV2
    [ {| Fragment.name := "OrderSuccessFragment";
         Fragment.typeCondition := "Order";
         Fragment.selectionSet :=
           [ scalar "id"; scalar "legacyId"; scalar "status";
             scalar "frequency"; scalar "data";
             object_ "amount"
               [scalar "value"; scalar "valueInCents"; scalar "currency"];
             object_ "paymentMethod"
               [scalar "id"; scalar "service"; scalar "type"; scalar "data"];
             object_ "platformTipAmount"
               [scalar "value"; scalar "valueInCents"; scalar "currency"];
             object_ "tier" [scalar "id"; scalar "name"];
             object_ "membership" [scalar "id"; scalar "publicMessage"];
             object_ "fromAccount"
               [ scalar "id"; scalar "name"; scalar "type";
                 Field "imageUrl" [("height"%string, 48)] [];
                 InlineFragment "Individual" [scalar "isGuest"] ];
             object_ "toAccount"
               [ scalar "id"; scalar "name"; scalar "slug"; scalar "tags";
                 scalar "type"; scalar "isHost"; scalar "settings";
                 InlineFragment "AccountWithContributions"
                   [ Field "contributors" [("limit"%string, 1)]
                       [scalar "totalCount"] ];
                 InlineFragment "AccountWithParent"
                   [object_ "parent" [scalar "id"; scalar "slug"]];
                 InlineFragment "AccountWithHost"
                   [ object_ "host"
                       [scalar "id"; FragmentSpread "OrderSuccessHostFragment"] ];
                 InlineFragment "Organization"
                   [ object_ "host"
                       [ scalar "id";
                         FragmentSpread "OrderSuccessHostFragment";
                         InlineFragment "AccountWithContributions"
                           [ Field "contributors" [("limit"%string, 1)]
                               [scalar "totalCount"] ] ] ] ] ] |} ]
    [orderSuccessHostFragment].

Definition orderResponseFragment : Document :=
  gqlV2
    [ {| Fragment.name := "OrderResponseFragment";
         Fragment.typeCondition := "OrderWithPayment";
         Fragment.selectionSet :=
           [ scalar "guestToken";
             object_ "order" [scalar "id"; FragmentSpread "OrderSuccessFragment"];
             object_ "stripeError"
               [scalar "message"; scalar "account"; scalar "response"] ] |} ]
    [orderSuccessFragment].

(** The names of the fragments a selection spreads, at any depth. *)
Fixpoint spreads (s : selection) : list string :=
  match s with
  | Field _ _ selectionSet => flat_map spreads selectionSet
  | InlineFragment _ selectionSet => flat_map spreads selectionSet
  | FragmentSpread name => [name]
  end.

Definition fragmentSpreads (fragment : Fragment.t) : list string :=
  flat_map spreads (Fragment.selectionSet fragment).

(** The names a document defines, in order. *)
Definition defined (document : Document) : list string :=
  Fragment.name <$> document.

(** Every fragment spread in the document is defined in it. *)
Definition closed (document : Document) : Prop :=
  forall fragment name,
    fragment ∈ document -> name ∈ fragmentSpreads fragment ->
    name ∈ defined document.

(** Every definition spreads only fragments defined after it. *)
Fixpoint ordered (document : Document) : bool :=
  match document with
  | [] => true
  | fragment :: rest =>
      forallb (fun name => bool_decide (name ∈ defined rest))
        (fragmentSpreads fragment)
      && ordered rest
  end.

(** Two expense types and labels that are the keys themselves, for the
    examples. *)
Definition twoExpenseTypes : list string := ["INVOICE"; "RECEIPT"]%string.

Definition keyAsLabel (key : string) : string := key.

(** * Properties *)

(** ** Objects *)

Lemma get_omit_route (o : object) (k : string) :
  k ≠ "slug"%string -> k ≠ "section"%string ->
  get (omit o ["slug"; "section"]) k = get o k.
Proof.
  intros Hslug Hsection. unfold get, omit. simpl.
  rewrite lookup_delete_ne by congruence.
  rewrite lookup_delete_ne by congruence.
  reflexivity.
Qed.

Lemma spread_twice (previous changes : object) :
  spread previous (spread previous changes) = spread previous changes.
Proof.
  unfold spread. apply map_eq. intros k.
  rewrite !lookup_union.
  destruct (changes !! k), (previous !! k); reflexivity.
Qed.

Lemma isEmpty_empty : isEmpty ∅ = true.
Proof. reflexivity. Qed.

Lemma isEmpty_insert (o : object) (k : string) (v : value) :
  isEmpty (<[k := v]> o) = false.
Proof.
  unfold isEmpty. apply bool_decide_eq_false. apply insert_non_empty.
Qed.

(** Spreading [{ type: null }] over an object and stripping the falsy values
    is stripping them from the object without its [type]. *)
Lemma omitBy_clear_type (previous : object) :
  omitBy (spread previous (<["type" := VNull]> ∅)) isFalsy
  = omitBy (delete "type" previous) isFalsy.
Proof.
  unfold omitBy, spread.
  rewrite <- insert_union_l, (left_id_L ∅ (∪)).
  apply map_filter_insert_False. simpl. discriminate.
Qed.

Lemma omitBy_lookup (o : object) (k : string) :
  omitBy o isFalsy !! k
  = match o !! k with
    | Some v => if truthy v then Some v else None
    | None => None
    end.
Proof.
  unfold omitBy. destruct (o !! k) as [v|] eqn:Hk.
  - destruct (truthy v) eqn:Hv.
    + apply map_lookup_filter_Some. split; [assumption|].
      simpl. unfold isFalsy. rewrite Hv. reflexivity.
    + apply map_lookup_filter_None. right. intros v' Hv'. simpl.
      rewrite Hk in Hv'. injection Hv' as <-. unfold isFalsy. rewrite Hv.
      discriminate.
  - apply map_lookup_filter_None. left. assumption.
Qed.

Lemma truthy_iff (v : value) :
  truthy v = true <-> v ≠ VUndefined /\ v ≠ VNull /\ v ≠ VString "".
Proof.
  destruct v as [| |s|items]; simpl.
  - split; [discriminate|]. intros (Habsurd & _). congruence.
  - split; [discriminate|]. intros (_ & Habsurd & _). congruence.
  - rewrite negb_true_iff, String.eqb_neq. split.
    + intros Hs. repeat split; congruence.
    + intros (_ & _ & Hs) ->. apply Hs. reflexivity.
  - split; [|reflexivity]. intros _. repeat split; discriminate.
Qed.

(** What is left of the router's query in the query pushed to clear [type]:
    nothing under [type], [slug] and [section], and under any other key the
    router's value if it is truthy. *)
Lemma cleared_query_lookup (router : Router.t) (k : string) :
  omitBy (delete "type" (routerQuery router)) isFalsy !! k
  = if decide (k = "type"%string \/ k = "slug"%string \/ k = "section"%string)
    then None
    else match Router.query router !! k with
         | Some v => if truthy v then Some v else None
         | None => None
         end.
Proof.
  rewrite omitBy_lookup. unfold routerQuery, omit. cbn [foldr].
  destruct (decide (k = "type"%string \/ k = "slug"%string
                    \/ k = "section"%string)) as [[-> | [-> | ->]] | Hother].
  - rewrite lookup_delete_eq. reflexivity.
  - rewrite lookup_delete_ne, lookup_delete_eq by discriminate. reflexivity.
  - rewrite !lookup_delete_ne, lookup_delete_eq by discriminate. reflexivity.
  - rewrite !lookup_delete_ne by (intros Hk; apply Hother; subst k; auto).
    reflexivity.
Qed.

(** ** Reconciliation of the type filter *)

Section Reconciliation.
Context {Activity : Type}.
Variable isSupportedActivityTypeFilter : Account.t -> value -> bool.

Lemma changes_unsupported (account : Account.t) (queryParams : object) :
  isSupportedActivityTypeFilter account (get queryParams "type") = false ->
  getChangesThatRequireUpdate isSupportedActivityTypeFilter
    (Some account) queryParams = {["type" := VNull]}.
Proof.
  intros Hunsupported. unfold getChangesThatRequireUpdate.
  rewrite Hunsupported. reflexivity.
Qed.

Lemma changes_supported (account : Account.t) (queryParams : object) :
  isSupportedActivityTypeFilter account (get queryParams "type") = true ->
  getChangesThatRequireUpdate isSupportedActivityTypeFilter
    (Some account) queryParams = ∅.
Proof.
  intros Hsupported. unfold getChangesThatRequireUpdate.
  rewrite Hsupported. reflexivity.
Qed.

Lemma effect_unsupported (router : Router.t) (data : Data.t Activity)
    (account : Account.t) :
  Data.account data = Some account ->
  isSupportedActivityTypeFilter account (get (routerQuery router) "type")
    = false ->
  resetTypeEffect isSupportedActivityTypeFilter router (Some data)
  = Some (handleUpdateFilters router
            (spread (routerQuery router) {["type" := VNull]})).
Proof.
  intros Haccount Hunsupported. unfold resetTypeEffect. simpl.
  rewrite Haccount, (changes_unsupported _ _ Hunsupported).
  reflexivity.
Qed.

Lemma effect_supported (router : Router.t) (data : Data.t Activity)
    (account : Account.t) :
  Data.account data = Some account ->
  isSupportedActivityTypeFilter account (get (routerQuery router) "type")
    = true ->
  resetTypeEffect isSupportedActivityTypeFilter router (Some data) = None.
Proof.
  intros Haccount Hsupported. unfold resetTypeEffect. simpl.
  rewrite Haccount, (changes_supported _ _ Hsupported).
  reflexivity.
Qed.

(** C1. Once the account is loaded: if the selected [type] is not supported
    by the account, the change set is [{ type: null }] and the effect issues
    a navigation whose query is the previous parameters merged with that
    change, the falsy values stripped: it has no [type], it has every other
    parameter of the router (the route parameters [slug] and [section]
    apart) whose value is not [undefined], [null] or empty, with that
    value, and it has nothing else. If the type is supported, the change set
    is empty and no navigation is issued. *)
Theorem reconciliation_after_load (router : Router.t)
    (account : Account.t) (activities : option (Activities.t Activity)) :
  let data := Some {| Data.account := Some account;
                      Data.activities := activities |} in
  let previous := routerQuery router in
  let changes :=
    getChangesThatRequireUpdate isSupportedActivityTypeFilter
      (Some account) previous in
  (isSupportedActivityTypeFilter account (get previous "type") = false ->
     changes = {["type" := VNull]}
     /\ exists url,
          resetTypeEffect isSupportedActivityTypeFilter router data = Some url
          /\ Url.query url = omitBy (spread previous changes) isFalsy
          /\ Url.query url !! "type" = None
          /\ Url.query url !! "slug" = None
          /\ Url.query url !! "section" = None
          /\ (forall k v,
                k ≠ "type"%string -> k ≠ "slug"%string ->
                k ≠ "section"%string ->
                Router.query router !! k = Some v ->
                (v = VUndefined \/ v = VNull \/ v = VString "" ->
                 Url.query url !! k = None)
                /\ (v ≠ VUndefined -> v ≠ VNull -> v ≠ VString "" ->
                    Url.query url !! k = Some v))
          /\ (forall k,
                Router.query router !! k = None -> Url.query url !! k = None))
  /\ (isSupportedActivityTypeFilter account (get previous "type") = true ->
        changes = ∅
        /\ resetTypeEffect isSupportedActivityTypeFilter router data = None).
Proof.
  intros data previous changes. subst changes previous. split.
  - intros Hunsupported.
    rewrite (changes_unsupported _ _ Hunsupported).
    split; [reflexivity|].
    eexists. split.
    { apply (effect_unsupported router _ account); [reflexivity|assumption]. }
    assert (Url.query
              (handleUpdateFilters router
                 (spread (routerQuery router) {["type" := VNull]}))
            = omitBy (delete "type" (routerQuery router)) isFalsy) as Hquery.
    { cbn [Url.query handleUpdateFilters]. rewrite spread_twice.
      change ({["type" := VNull]} : object)
        with (<["type" := VNull]> (∅ : object)).
      apply omitBy_clear_type. }
    split.
    { cbn [Url.query handleUpdateFilters]. rewrite spread_twice. reflexivity. }
    rewrite Hquery.
    split; [rewrite cleared_query_lookup; reflexivity|].
    split; [rewrite cleared_query_lookup; reflexivity|].
    split; [rewrite cleared_query_lookup; reflexivity|].
    split.
    + intros k v Htype Hslug Hsection Hk.
      rewrite cleared_query_lookup, Hk.
      destruct (decide _) as [[? | [? | ?]] | _]; try contradiction.
      split.
      * intros Hfalsy. destruct (truthy v) eqn:Hv; [|reflexivity].
        apply truthy_iff in Hv as (? & ? & ?).
        destruct Hfalsy as [? | [? | ?]]; contradiction.
      * intros Hundefined Hnull Hempty.
        assert (truthy v = true) as -> by (apply truthy_iff; auto).
        reflexivity.
    + intros k Hk. rewrite cleared_query_lookup, Hk.
      destruct (decide _); reflexivity.
  - intros Hsupported. split.
    + apply changes_supported. assumption.
    + apply (effect_supported router _ account); [reflexivity|assumption].
Qed.

(** C9. While no account is loaded ([data?.account] is [null] or
    [undefined]), the change set is empty whatever the parameters are, and
    the effect issues no navigation. *)
Theorem no_reconciliation_without_account (router : Router.t)
    (queryParams : object) (data : option (Data.t Activity)) :
  data ≫= Data.account = None ->
  getChangesThatRequireUpdate isSupportedActivityTypeFilter None queryParams
    = ∅
  /\ resetTypeEffect isSupportedActivityTypeFilter router data = None.
Proof.
  intros Habsent. split; [reflexivity|].
  unfold resetTypeEffect. rewrite Habsent. reflexivity.
Qed.
End Reconciliation.


(** The query pushed to clear [type] holds neither [slug] nor [section], so
    omitting them leaves it as it is. *)
Lemma pushed_query_omit (router : Router.t) :
  omit (omitBy (delete "type" (routerQuery router)) isFalsy) ["slug"; "section"]
  = omitBy (delete "type" (routerQuery router)) isFalsy.
Proof.
  unfold omit. simpl.
  rewrite (delete_id _ "section"%string).
  - apply delete_id. rewrite omitBy_lookup, lookup_delete_ne by discriminate.
    unfold routerQuery, omit. simpl. rewrite lookup_delete_eq. reflexivity.
  - rewrite omitBy_lookup, lookup_delete_ne by discriminate.
    unfold routerQuery, omit. simpl.
    rewrite lookup_delete_ne by discriminate.
    rewrite lookup_delete_eq. reflexivity.
Qed.


(** ** Strings: [split] and [join] *)

Lemma split_not_nil (sep : ascii) (s : string) : split sep s ≠ [].
Proof.
  destruct s as [|c rest]; simpl; [discriminate|].
  destruct (Ascii.eqb c sep); [discriminate|].
  destruct (split sep rest); discriminate.
Qed.

Lemma split_whole (sep : ascii) (s : string) :
  occurs sep s = false -> split sep s = [s].
Proof.
  induction s as [|c rest IH]; simpl; [reflexivity|].
  intros Hfree. apply orb_false_elim in Hfree as [Hc Hrest].
  rewrite Hc, (IH Hrest). reflexivity.
Qed.

Lemma split_first (sep : ascii) (piece rest : string) :
  occurs sep piece = false ->
  split sep (piece +:+ String sep rest) = piece :: split sep rest.
Proof.
  induction piece as [|c piece IH]; simpl.
  - intros _. rewrite Ascii.eqb_refl. reflexivity.
  - intros Hfree. apply orb_false_elim in Hfree as [Hc Hpiece].
    rewrite Hc, (IH Hpiece). reflexivity.
Qed.

(** Splitting what [join] put together gives the pieces back, in order. *)
Lemma split_join (sep : ascii) (pieces : list string) :
  pieces ≠ [] ->
  Forall (fun piece => occurs sep piece = false) pieces ->
  split sep (join (String sep EmptyString) pieces) = pieces.
Proof.
  induction pieces as [|piece rest IH]; [congruence|].
  intros _ Hfree. apply Forall_cons in Hfree as [Hpiece Hrest].
  destruct rest as [|next rest].
  - simpl. apply split_whole. assumption.
  - change (join (String sep EmptyString) (piece :: next :: rest))
      with (piece +:+ String sep (join (String sep EmptyString) (next :: rest))).
    rewrite (split_first _ _ _ Hpiece), IH; [reflexivity|discriminate|assumption].
Qed.

(** Every string is the [join] of its pieces, and no piece holds the
    separator. *)
Lemma join_cons (sep piece : string) (pieces : list string) :
  pieces ≠ [] ->
  join sep (piece :: pieces) = piece +:+ sep +:+ join sep pieces.
Proof. destruct pieces; [congruence|reflexivity]. Qed.

Lemma join_split (sep : ascii) (s : string) :
  join (String sep EmptyString) (split sep s) = s
  /\ Forall (fun piece => occurs sep piece = false) (split sep s).
Proof.
  induction s as [|c rest [IHjoin IHfree]]; simpl.
  - split; [reflexivity|]. repeat constructor.
  - pose proof (split_not_nil sep rest) as Hne.
    destruct (Ascii.eqb c sep) eqn:Hc.
    + apply Ascii.eqb_eq in Hc as ->. split.
      * rewrite (join_cons _ _ _ Hne), IHjoin. reflexivity.
      * constructor; [reflexivity|assumption].
    + destruct (split sep rest) as [|piece pieces]; [congruence|].
      apply Forall_cons in IHfree as [Hpiece Hpieces]. split.
      * destruct pieces as [|next pieces].
        -- simpl in IHjoin |- *. rewrite IHjoin. reflexivity.
        -- rewrite join_cons by discriminate.
           rewrite join_cons in IHjoin by discriminate.
           rewrite <- IHjoin. reflexivity.
      * constructor; [|assumption]. simpl. rewrite Hc, Hpiece. reflexivity.
Qed.

(** ** The derived query variables *)

Section QueryVariables.
Context {Date FilterValues : Type}.
Variable parseDateInterval : value -> DateInterval Date.
Variable getActivityTypeFilterValuesFromKey : value -> FilterValues.

Local Abbreviation queryVariables :=
  (getQueryVariables parseDateInterval getActivityTypeFilterValuesFromKey).

(** C4. When [account] is ['__CHILDREN_ACCOUNTS__'], the variables are
    produced with [includeChildrenAccounts] and [excludeParentAccount] set
    to [true] and [includeHostedAccounts] left [undefined]. *)
Theorem children_accounts_variables (accountSlug : string)
    (router : Router.t) :
  get (routerQuery router) "account" = VString "__CHILDREN_ACCOUNTS__" ->
  exists v,
    queryVariables accountSlug router = Normal v
    /\ Variables.includeChildrenAccounts v = Some true
    /\ Variables.excludeParentAccount v = Some true
    /\ Variables.includeHostedAccounts v = None.
Proof.
  intros Haccount. unfold getQueryVariables.
  fold (routerQuery router). rewrite Haccount. simpl.
  eexists. split; [reflexivity|]. simpl. auto.
Qed.

(** C5. When [account] is ['__HOSTED_ACCOUNTS__'], the variables are
    produced with [includeHostedAccounts] set to [true],
    [includeChildrenAccounts] and [excludeParentAccount] left [undefined],
    and [account] the single [{ slug: accountSlug }]. *)
Theorem hosted_accounts_variables (accountSlug : string)
    (router : Router.t) :
  get (routerQuery router) "account" = VString "__HOSTED_ACCOUNTS__" ->
  exists v,
    queryVariables accountSlug router = Normal v
    /\ Variables.includeHostedAccounts v = Some true
    /\ Variables.includeChildrenAccounts v = None
    /\ Variables.excludeParentAccount v = None
    /\ Variables.account v = OneAccount {| slug := accountSlug |}.
Proof.
  intros Haccount. unfold getQueryVariables.
  fold (routerQuery router). rewrite Haccount. simpl.
  eexists. split; [reflexivity|]. simpl. auto.
Qed.

(** C6. When [account] is a non-empty string other than the two sentinels,
    the [account] variable is the list of [{ slug }] objects of its
    comma-separated pieces, which are the slugs it was joined from, in their
    order; [includeChildrenAccounts] is [true], and [includeHostedAccounts]
    and [excludeParentAccount] are left [undefined]. *)
Theorem selected_accounts_variables (accountSlug : string)
    (router : Router.t) (s : string) :
  get (routerQuery router) "account" = VString s ->
  s ≠ ""%string ->
  s ≠ "__CHILDREN_ACCOUNTS__"%string ->
  s ≠ "__HOSTED_ACCOUNTS__"%string ->
  exists v,
    queryVariables accountSlug router = Normal v
    /\ Variables.account v
       = ManyAccounts ((fun slug => {| slug := slug |}) <$> split "," s)
    /\ (forall slugs : list string,
          Forall (fun slug => occurs "," slug = false) slugs ->
          join "," slugs = s ->
          Variables.account v
          = ManyAccounts ((fun slug => {| slug := slug |}) <$> slugs))
    /\ Variables.includeChildrenAccounts v = Some true
    /\ Variables.includeHostedAccounts v = None
    /\ Variables.excludeParentAccount v = None.
Proof.
  intros Haccount Hnonempty Hchildren Hhosted.
  unfold getQueryVariables.
  fold (routerQuery router). rewrite Haccount. simpl.
  apply String.eqb_neq in Hnonempty, Hchildren, Hhosted.
  rewrite Hchildren, Hhosted, Hnonempty. simpl.
  eexists. split; [reflexivity|]. simpl.
  split; [reflexivity|]. split; [|auto].
  intros slugs Hfree Hjoin. subst s.
  rewrite split_join; [reflexivity| |assumption].
  intros ->. apply String.eqb_neq in Hnonempty. apply Hnonempty. reflexivity.
Qed.

(** C10. Two router queries that agree on every key other than [slug] and
    [section] give the same variables. *)
Theorem variables_ignore_route_parameters (accountSlug : string)
    (router1 router2 : Router.t) :
  (forall k : string,
      k ≠ "slug"%string -> k ≠ "section"%string ->
      Router.query router1 !! k = Router.query router2 !! k) ->
  queryVariables accountSlug router1
  = queryVariables accountSlug router2.
Proof.
  intros Hagree.
  assert (omit (Router.query router1) ["slug"; "section"]
          = omit (Router.query router2) ["slug"; "section"]) as Hsame.
  { apply map_eq. intros k. unfold omit. simpl.
    destruct (decide (k = "slug"%string)) as [->|Hslug].
    { rewrite !lookup_delete_eq. reflexivity. }
    rewrite !(lookup_delete_ne _ "slug"%string) by congruence.
    destruct (decide (k = "section"%string)) as [->|Hsection].
    { rewrite !lookup_delete_eq. reflexivity. }
    rewrite !lookup_delete_ne by congruence.
    apply Hagree; assumption. }
  unfold getQueryVariables. rewrite Hsame. reflexivity.
Qed.
End QueryVariables.

(** ** [parseInt] *)














(** ** The derived offset *)

Section Offset.
Context {Date FilterValues : Type}.
Variable parseDateInterval : value -> DateInterval Date.
Variable getActivityTypeFilterValuesFromKey : value -> FilterValues.

Lemma offset_derived (accountSlug : string) (router : Router.t)
    (v : Variables.t Date FilterValues) :
  getQueryVariables parseDateInterval getActivityTypeFilterValuesFromKey
    accountSlug router = Normal v ->
  Variables.offset v
  = orZero (parseInt (get (routerQuery router) "offset")).
Proof.
  unfold getQueryVariables. fold (routerQuery router).
  repeat match goal with
         | |- context [if ?b then _ else _] => destruct b
         | |- context [match ?x with _ => _ end] => destruct x
         end;
    intros Hv; inversion Hv; reflexivity.
Qed.

End Offset.

(** ** What is rendered *)

Section Rendering.
Context {Date FilterValues Activity ApolloError : Type}.
Variable parseDateInterval : value -> DateInterval Date.
Variable getActivityTypeFilterValuesFromKey : value -> FilterValues.
Variable isSupportedActivityTypeFilter : Account.t -> value -> bool.

Local Abbreviation component :=
  (ActivityLog (Activity := Activity) (ApolloError := ApolloError)
     parseDateInterval getActivityTypeFilterValuesFromKey
     isSupportedActivityTypeFilter).

Lemma limit_is_fixed (accountSlug : string) (router : Router.t)
    (v : Variables.t Date FilterValues) :
  getQueryVariables parseDateInterval getActivityTypeFilterValuesFromKey
    accountSlug router = Normal v ->
  Variables.limit v = 10.
Proof.
  unfold getQueryVariables.
  repeat match goal with
         | |- context [if ?b then _ else _] => destruct b
         | |- context [match ?x with _ => _ end] => destruct x
         end;
    intros Hv; inversion Hv; reflexivity.
Qed.

Lemma pagination_rendered (router : Router.t)
    (result : QueryResult.t Activity ApolloError) (totalCount : Z) :
  activityTotalCount (QueryResult.data result) = Some totalCount ->
  10 < totalCount ->
  renderPagination router result
  = Some {| Pagination.offset :=
              orZero (parseInt (get (routerQuery router) "offset"));
            Pagination.total := totalCount;
            Pagination.limit := 10;
            Pagination.ignoredQueryParams := ["slug"; "section"]%string |}.
Proof.
  intros Hcount Hmore. unfold renderPagination. rewrite Hcount.
  unfold ACTIVITY_LIMIT.
  destruct (Z.ltb_spec 10 totalCount); [reflexivity|lia].
Qed.

Lemma pagination_not_rendered (router : Router.t)
    (result : QueryResult.t Activity ApolloError) :
  (forall totalCount,
      activityTotalCount (QueryResult.data result) = Some totalCount ->
      totalCount <= 10) ->
  renderPagination router result = None.
Proof.
  intros Hcount. unfold renderPagination.
  destruct (activityTotalCount (QueryResult.data result)) as [totalCount|];
    [|reflexivity].
  specialize (Hcount _ eq_refl). unfold ACTIVITY_LIMIT.
  destruct (Z.ltb_spec 10 totalCount); [lia|reflexivity].
Qed.

Lemma ActivityLog_returns (accountSlug : string) (router : Router.t)
    (result : QueryResult.t Activity ApolloError) (rendered : Render) :
  component accountSlug router result = Normal rendered ->
  getQueryVariables parseDateInterval getActivityTypeFilterValuesFromKey
    accountSlug router = Normal (variables rendered)
  /\ view rendered
     = {| View.filters :=
            {| ActivityFilters.filters := routerQuery router;
               ActivityFilters.account :=
                 QueryResult.data result ≫= Data.account |};
          View.body := renderBody result;
          View.pagination := renderPagination router result |}
  /\ navigation rendered
     = resetTypeEffect isSupportedActivityTypeFilter router
         (QueryResult.data result).
Proof.
  unfold ActivityLog.
  destruct (getQueryVariables _ _ accountSlug router) as [v|];
    [|discriminate].
  intros [= <-]. repeat split.
Qed.

(** C7. Whenever the component renders, the query it derives has [limit] 10,
    and the pagination is rendered exactly when [totalCount] is above 10; it
    is then given that total and the limit 10. A total of 25 is rendered,
    with 3 pages at 10 per page; totals of 5 and of 10 are not. *)
Theorem page_size_and_pagination (accountSlug : string) (router : Router.t)
    (result : QueryResult.t Activity ApolloError) (rendered : Render) :
  component accountSlug router result = Normal rendered ->
  let pagination := View.pagination (view rendered) in
  let totalCount := activityTotalCount (QueryResult.data result) in
  getQueryVariables parseDateInterval getActivityTypeFilterValuesFromKey
    accountSlug router = Normal (variables rendered)
  /\ Variables.limit (variables rendered) = 10
  /\ (is_Some pagination <-> exists n, totalCount = Some n /\ 10 < n)
  /\ (forall props, pagination = Some props ->
        totalCount = Some (Pagination.total props)
        /\ Pagination.limit props = 10)
  /\ (totalCount = Some 25 -> is_Some pagination /\ totalPages 25 10 = 3)
  /\ (totalCount = Some 5 -> pagination = None)
  /\ (totalCount = Some 10 -> pagination = None).
Proof.
  intros Hrendered pagination totalCount. subst pagination.
  destruct (ActivityLog_returns _ _ _ _ Hrendered) as (Hv & -> & _).
  cbn [View.pagination].
  split; [exact Hv|].
  split; [apply (limit_is_fixed _ _ _ Hv)|].
  split.
  { split.
    - intros [props Hprops]. unfold renderPagination in Hprops.
      fold totalCount in Hprops.
      destruct totalCount as [n|]; [|discriminate].
      unfold ACTIVITY_LIMIT in Hprops.
      destruct (Z.ltb_spec 10 n); [|discriminate].
      exists n. split; [reflexivity|assumption].
    - intros [n [Hcount Hmore]].
      rewrite (pagination_rendered _ _ _ Hcount Hmore). eexists. reflexivity. }
  split.
  { intros props Hprops. unfold renderPagination in Hprops.
    fold totalCount in Hprops.
    destruct totalCount as [n|]; [|discriminate].
    destruct (ACTIVITY_LIMIT <? n); [|discriminate].
    injection Hprops as <-. split; reflexivity. }
  split.
  { intros Hcount. split; [|reflexivity].
    rewrite (pagination_rendered _ _ _ Hcount); [eexists; reflexivity|lia]. }
  split.
  - intros Hcount. apply pagination_not_rendered.
    intros n Hn. fold totalCount in Hn. rewrite Hcount in Hn.
    injection Hn as <-. lia.
  - intros Hcount. apply pagination_not_rendered.
    intros n Hn. fold totalCount in Hn. rewrite Hcount in Hn.
    injection Hn as <-. lia.
Qed.


End Rendering.

(** * The properties on examples *)

Lemma reconciliation_after_load_witness :
  let router := routerAt hostQuery in
  hostOnly individual (get (routerQuery router) "type") = false
  /\ getChangesThatRequireUpdate hostOnly (Some individual) (routerQuery router)
     = {["type" := VNull]}
  /\ exists url,
       resetTypeEffect hostOnly router (loaded individual) = Some url
       /\ Url.query url !! "type" = None
       /\ Url.query url !! "section" = None
       /\ Url.query url !! "offset" = Some (VString "20").
Proof.
  assert (hostOnly individual (get (routerQuery (routerAt hostQuery)) "type")
          = false) as Hunsupported by reflexivity.
  split; [exact Hunsupported|].
  destruct (proj1 (reconciliation_after_load (Activity := unit) hostOnly
                     (routerAt hostQuery) individual None) Hunsupported)
    as (Hchanges & url & Heffect & _ & Htype & _ & Hsection & Hkept & _).
  split; [exact Hchanges|].
  exists url. split; [exact Heffect|]. split; [exact Htype|].
  split; [exact Hsection|].
  apply (Hkept "offset"%string (VString "20")); try discriminate.
  reflexivity.
Defined.





Lemma children_accounts_variables_witness :
  let router := routerAt {["account" := VString "__CHILDREN_ACCOUNTS__"]} in
  get (routerQuery router) "account" = VString "__CHILDREN_ACCOUNTS__"
  /\ exists v,
       getQueryVariables unboundedInterval typeKey "ada" router = Normal v
       /\ Variables.includeChildrenAccounts v = Some true
       /\ Variables.excludeParentAccount v = Some true
       /\ Variables.includeHostedAccounts v = None.
Proof.
  split; [reflexivity|].
  apply (children_accounts_variables unboundedInterval typeKey "ada"
           (routerAt {["account" := VString "__CHILDREN_ACCOUNTS__"]})).
  reflexivity.
Defined.

Lemma hosted_accounts_variables_witness :
  let router := routerAt {["account" := VString "__HOSTED_ACCOUNTS__"]} in
  get (routerQuery router) "account" = VString "__HOSTED_ACCOUNTS__"
  /\ exists v,
       getQueryVariables unboundedInterval typeKey "ada" router = Normal v
       /\ Variables.includeHostedAccounts v = Some true
       /\ Variables.includeChildrenAccounts v = None
       /\ Variables.excludeParentAccount v = None
       /\ Variables.account v = OneAccount {| slug := "ada" |}.
Proof.
  split; [reflexivity|].
  apply (hosted_accounts_variables unboundedInterval typeKey "ada"
           (routerAt {["account" := VString "__HOSTED_ACCOUNTS__"]})).
  reflexivity.
Defined.

Lemma selected_accounts_variables_witness :
  let router := routerAt {["account" := VString "a,b,c"]} in
  let reference := fun slug => {| slug := slug |} in
  get (routerQuery router) "account" = VString "a,b,c"
  /\ exists v,
       getQueryVariables unboundedInterval typeKey "ada" router = Normal v
       /\ Variables.account v = ManyAccounts (reference <$> split "," "a,b,c")
       /\ (forall slugs : list string,
             Forall (fun slug => occurs "," slug = false) slugs ->
             join "," slugs = "a,b,c"%string ->
             Variables.account v = ManyAccounts (reference <$> slugs))
       /\ Variables.includeChildrenAccounts v = Some true
       /\ Variables.includeHostedAccounts v = None
       /\ Variables.excludeParentAccount v = None.
Proof.
  split; [reflexivity|].
  apply (selected_accounts_variables unboundedInterval typeKey "ada"
           (routerAt {["account" := VString "a,b,c"]}) "a,b,c");
    [reflexivity|discriminate|discriminate|discriminate].
Defined.

Lemma page_size_and_pagination_witness :
  exists rendered,
    ActivityLog unboundedInterval typeKey hostOnly "ada" (routerAt hostQuery)
      (resultWith 25) = Normal rendered
    /\ activityTotalCount (QueryResult.data (resultWith 25)) = Some 25
    /\ Variables.limit (variables rendered) = 10
    /\ is_Some (View.pagination (view rendered))
    /\ totalPages 25 10 = 3.
Proof.
  destruct (ActivityLog unboundedInterval typeKey hostOnly "ada"
              (routerAt hostQuery) (resultWith 25))
    as [rendered|] eqn:Hrendered;
    [|vm_compute in Hrendered; discriminate Hrendered].
  exists rendered. split; [reflexivity|]. split; [reflexivity|].
  destruct (page_size_and_pagination unboundedInterval typeKey hostOnly "ada"
              (routerAt hostQuery) (resultWith 25) rendered Hrendered)
    as (_ & Hlimit & _ & _ & Hshown & _).
  split; [exact Hlimit|]. apply Hshown. reflexivity.
Defined.


Lemma no_reconciliation_without_account_witness :
  let data : option (Data.t unit) := None in
  data ≫= Data.account = None
  /\ getChangesThatRequireUpdate hostOnly None hostQuery = ∅
  /\ resetTypeEffect hostOnly (routerAt hostQuery) data = None.
Proof.
  split; [reflexivity|].
  apply (no_reconciliation_without_account hostOnly (routerAt hostQuery)
           hostQuery None).
  reflexivity.
Defined.

Lemma variables_ignore_route_parameters_witness :
  let router1 := routerAt {["offset" := VString "20"; "slug" := VString "ada"]} in
  let router2 :=
    routerAt {["offset" := VString "20"; "section" := VString "activity-log"]} in
  (forall k : string,
      k ≠ "slug"%string -> k ≠ "section"%string ->
      Router.query router1 !! k = Router.query router2 !! k)
  /\ getQueryVariables unboundedInterval typeKey "ada" router1
     = getQueryVariables unboundedInterval typeKey "ada" router2.
Proof.
  assert (forall k : string,
             k ≠ "slug"%string -> k ≠ "section"%string ->
             ({["offset" := VString "20"; "slug" := VString "ada"]} : object) !! k
             = ({["offset" := VString "20";
                  "section" := VString "activity-log"]} : object) !! k)
    as Hagree.
  { intros k Hslug Hsection.
    destruct (decide (k = "offset"%string)) as [->|Hoffset].
    - rewrite !lookup_insert_eq. reflexivity.
    - rewrite !lookup_insert_ne by congruence.
      rewrite !lookup_singleton_ne by congruence. reflexivity. }
  split; [exact Hagree|].
  apply (variables_ignore_route_parameters unboundedInterval typeKey "ada").
  exact Hagree.
Defined.

(** ** Evaluations *)

Example parseInt_20 : parseInt (VString "20") = Finite 20.
Proof. reflexivity. Qed.

Example parseInt_abc : parseInt (VString "abc") = NaN.
Proof. reflexivity. Qed.

Example parseInt_undefined : parseInt VUndefined = NaN.
Proof. reflexivity. Qed.

Example parseInt_prefix : parseInt (VString "  12px") = Finite 12.
Proof. reflexivity. Qed.

Example parseInt_hex : parseInt (VString "0x1f") = Finite 31.
Proof. reflexivity. Qed.

Example parseInt_array : parseInt (VArray ["20"; "30"]) = Finite 20.
Proof. reflexivity. Qed.

Example parseInt_rounds :
  parseInt (VString "9007199254740993") = Finite 9007199254740992.
Proof. vm_compute. reflexivity. Qed.

Example split_abc : split "," "a,b,c" = ["a"; "b"; "c"].
Proof. reflexivity. Qed.

Example split_gaps : split "," ",a,," = [""; "a"; ""; ""].
Proof. reflexivity. Qed.

Example parseInt_negative_zero : orZero (parseInt (VString "-0")) = Finite 0.
Proof. reflexivity. Qed.

Example parseInt_null : orZero (parseInt VNull) = Finite 0.
Proof. reflexivity. Qed.

Example parseInt_hex_prefix_alone : parseInt (VString "0x") = NaN.
Proof. reflexivity. Qed.

Example repeated_account_throws :
  getQueryVariables unboundedInterval typeKey "ada"
    (routerAt {["account" := VArray ["a"; "b"]]})
  = TypeError.
Proof. reflexivity. Qed.

Example selected_accounts :
  getQueryVariables unboundedInterval typeKey "ada"
    (routerAt {["account" := VString "a,b,c"; "offset" := VString "20"]})
  = Normal (variablesOf (Finite 20)
              (ManyAccounts [{| slug := "a" |}; {| slug := "b" |};
                             {| slug := "c" |}])
              (Some true) None None).
Proof. reflexivity. Qed.

(** An individual asking for the host's activities is sent, once, to the same
    page without [type]. *)
Example individual_with_host_filter :
  navigations hostOnly pushUrl 5
    (routerAt hostQuery) (loaded individual)
  = [ {| Url.pathname := "/ada/admin/activity-log";
         Url.query := {["offset" := VString "20"]} |} ].
Proof. vm_compute. reflexivity. Qed.

Example filters_change_resets_offset :
  onFiltersChange (routerAt hostQuery) {["type" := VString "USER"]}
  = {| Url.pathname := "/ada/admin/activity-log";
       Url.query := {["type" := VString "USER"]} |}.
Proof. vm_compute. reflexivity. Qed.

(** * Further properties of the activity log *)

(** ** What [handleUpdateFilters] pushes *)

Lemma routerQuery_route (router : Router.t) (k : string) :
  k = "slug"%string \/ k = "section"%string -> routerQuery router !! k = None.
Proof.
  unfold routerQuery, omit. simpl. intros [-> | ->].
  - apply lookup_delete_eq.
  - rewrite lookup_delete_ne by discriminate. apply lookup_delete_eq.
Qed.

Lemma handleUpdateFilters_lookup (router : Router.t) (queryParams : object)
    (k : string) :
  Url.query (handleUpdateFilters router queryParams) !! k
  = match queryParams !! k with
    | Some v => if truthy v then Some v else None
    | None =>
        match routerQuery router !! k with
        | Some v => if truthy v then Some v else None
        | None => None
        end
    end.
Proof.
  simpl. rewrite omitBy_lookup. unfold spread. rewrite lookup_union.
  destruct (queryParams !! k) as [v|], (routerQuery router !! k) as [w|];
    reflexivity.
Qed.

(** X1. The query given to [router.push] holds, for each key, the value of
    [queryParams] when it has the key and else the router's, and holds it only
    if it is truthy: a [null] or empty value in [queryParams] removes the
    router's parameter. No value of the pushed query is falsy, and [slug] and
    [section] are in it only if [queryParams] brings them. *)
Theorem pushed_query_contract (router : Router.t) (queryParams : object) :
  let pushed := Url.query (handleUpdateFilters router queryParams) in
  (forall k v, queryParams !! k = Some v ->
     pushed !! k = if truthy v then Some v else None)
  /\ (forall k, queryParams !! k = None ->
        pushed !! k
        = match routerQuery router !! k with
          | Some v => if truthy v then Some v else None
          | None => None
          end)
  /\ (forall k v, pushed !! k = Some v -> truthy v = true)
  /\ (forall k v, k = "slug"%string \/ k = "section"%string ->
        pushed !! k = Some v -> queryParams !! k = Some v).
Proof.
  intros pushed. subst pushed. split; [|split; [|split]].
  - intros k v Hk. rewrite handleUpdateFilters_lookup, Hk. reflexivity.
  - intros k Hk. rewrite handleUpdateFilters_lookup, Hk. reflexivity.
  - intros k v. rewrite handleUpdateFilters_lookup.
    destruct (queryParams !! k) as [w|].
    + destruct (truthy w) eqn:Hw; [|discriminate]. intros [= <-]. assumption.
    + destruct (routerQuery router !! k) as [w|]; [|discriminate].
      destruct (truthy w) eqn:Hw; [|discriminate]. intros [= <-]. assumption.
  - intros k v Hroute. rewrite handleUpdateFilters_lookup.
    rewrite (routerQuery_route _ _ Hroute).
    destruct (queryParams !! k) as [w|]; [|discriminate].
    destruct (truthy w); [|discriminate]. intros [= <-]. reflexivity.
Qed.

Lemma pushed_query_contract_witness :
  let pushed :=
    Url.query (handleUpdateFilters (routerAt hostQuery)
                 {["type" := VNull; "period" := VString "2022"]}) in
  ({["type" := VNull; "period" := VString "2022"]} : object) !! "type"
    = Some VNull
  /\ pushed !! "type" = None.
Proof.
  split; [reflexivity|].
  apply (proj1 (pushed_query_contract (routerAt hostQuery)
                  {["type" := VNull; "period" := VString "2022"]})
           "type"%string VNull).
  reflexivity.
Defined.

(** X2. Pushing the same parameters again, from a router that took over the
    pushed query, pushes the same query: an update of the filters is
    idempotent. *)
Theorem handleUpdateFilters_idempotent (router router' : Router.t)
    (queryParams : object) :
  routerQuery router'
  = omit (Url.query (handleUpdateFilters router queryParams))
      ["slug"; "section"] ->
  Url.query (handleUpdateFilters router' queryParams)
  = Url.query (handleUpdateFilters router queryParams).
Proof.
  intros Htaken. apply map_eq. intros k.
  rewrite (handleUpdateFilters_lookup router'), Htaken.
  rewrite (handleUpdateFilters_lookup router).
  destruct (queryParams !! k) as [v|] eqn:Hk; [reflexivity|].
  unfold omit. cbn [foldr].
  destruct (decide (k = "slug"%string)) as [->|Hslug].
  { rewrite lookup_delete_eq, routerQuery_route by auto. reflexivity. }
  rewrite lookup_delete_ne by congruence.
  destruct (decide (k = "section"%string)) as [->|Hsection].
  { rewrite lookup_delete_eq, routerQuery_route by auto. reflexivity. }
  rewrite lookup_delete_ne by congruence.
  rewrite handleUpdateFilters_lookup, Hk.
  destruct (routerQuery router !! k) as [w|]; [|reflexivity].
  destruct (truthy w) eqn:Hw; [rewrite Hw|]; reflexivity.
Qed.

Lemma handleUpdateFilters_idempotent_witness :
  let queryParams : object := {["type" := VString "USER"]} in
  let router' := pushUrl (routerAt hostQuery)
                   (handleUpdateFilters (routerAt hostQuery) queryParams) in
  routerQuery router'
  = omit (Url.query (handleUpdateFilters (routerAt hostQuery) queryParams))
      ["slug"; "section"]
  /\ Url.query (handleUpdateFilters router' queryParams)
     = Url.query (handleUpdateFilters (routerAt hostQuery) queryParams).
Proof.
  split; [reflexivity|].
  apply (handleUpdateFilters_idempotent (routerAt hostQuery)).
  reflexivity.
Defined.

(** ** The pushed pathname *)

Lemma split_head (sep : ascii) (s : string) :
  exists piece pieces,
    split sep s = piece :: pieces
    /\ occurs sep piece = false
    /\ (pieces = [] /\ s = piece
        \/ exists rest, s = piece +:+ String sep rest).
Proof.
  destruct (join_split sep s) as [Hjoin Hfree].
  pose proof (split_not_nil sep s) as Hne.
  destruct (split sep s) as [|piece pieces]; [congruence|].
  exists piece, pieces. split; [reflexivity|].
  apply Forall_cons in Hfree as [Hpiece _]. split; [assumption|].
  destruct pieces as [|next pieces].
  - left. split; [reflexivity|]. symmetry. exact Hjoin.
  - right. rewrite join_cons in Hjoin by discriminate.
    eexists. symmetry. exact Hjoin.
Qed.

(** X3. The pathname given to [router.push] is [asPath] up to its first [?]: it
    holds no [?], and [asPath] is either that pathname or the pathname, a [?]
    and a query string. Whatever path without [?] the router is at, with or
    without a query string, that path is the pathname. *)
Theorem pushed_pathname (router : Router.t) (queryParams : object) :
  let pathname := Url.pathname (handleUpdateFilters router queryParams) in
  occurs "?" pathname = false
  /\ (Router.asPath router = pathname
      \/ exists search, Router.asPath router = pathname +:+ String "?" search)
  /\ (forall path search,
        occurs "?" path = false ->
        Router.asPath router = path
        \/ Router.asPath router = path +:+ String "?" search ->
        pathname = path).
Proof.
  cbn [handleUpdateFilters Url.pathname].
  destruct (split_head "?" (Router.asPath router))
    as (piece & pieces & Hsplit & Hfree & Hshape).
  rewrite Hsplit. cbn [head default].
  split; [assumption|]. split.
  - destruct Hshape as [[_ ->] | [rest ->]]; [left|right; exists rest];
      reflexivity.
  - intros path search Hpath Hat.
    assert (exists others, split "?" (Router.asPath router) = path :: others)
      as [others Hpieces].
    { destruct Hat as [-> | ->].
      - exists []. apply split_whole. assumption.
      - exists (split "?" search). apply split_first. assumption. }
    rewrite Hsplit in Hpieces. injection Hpieces as -> _. reflexivity.
Qed.

Lemma pushed_pathname_witness :
  occurs "?" "/ada/admin/activity-log" = false
  /\ (Router.asPath (routerAt hostQuery) = "/ada/admin/activity-log"%string
      \/ Router.asPath (routerAt hostQuery)
         = ("/ada/admin/activity-log" +:+ String "?" "type=HOST")%string)
  /\ Url.pathname (handleUpdateFilters (routerAt hostQuery) ∅)
     = "/ada/admin/activity-log"%string.
Proof.
  split; [reflexivity|]. split; [right; reflexivity|].
  apply (proj2 (proj2 (pushed_pathname (routerAt hostQuery) ∅))
           "/ada/admin/activity-log"%string "type=HOST"%string);
    [reflexivity|right; reflexivity].
Defined.

(** ** A change of the filters *)

(** X4. Whatever filters [<ActivityFilters>] reports, an [offset] among them
    included, the query pushed for them has no [offset]; its other
    parameters are the reported ones, or else the router's, when truthy. A
    router that takes this query over derives the offset 0: a change of the
    filters goes back to the first page. *)
Theorem filters_change_goes_to_first_page {Date FilterValues : Type}
    (parseDateInterval : value -> DateInterval Date)
    (getActivityTypeFilterValuesFromKey : value -> FilterValues)
    (router router' : Router.t) (queryParams : object) (accountSlug : string)
    (v : Variables.t Date FilterValues) :
  let pushed := Url.query (onFiltersChange router queryParams) in
  routerQuery router' = pushed ->
  getQueryVariables parseDateInterval getActivityTypeFilterValuesFromKey
    accountSlug router' = Normal v ->
  pushed !! "offset" = None
  /\ (forall k, k ≠ "offset"%string ->
        pushed !! k
        = Url.query (handleUpdateFilters router queryParams) !! k)
  /\ Variables.offset v = Finite 0.
Proof.
  intros pushed Htaken Hv. subst pushed. unfold onFiltersChange in *.
  assert (Url.query
            (handleUpdateFilters router (<["offset" := VNull]> queryParams))
            !! "offset" = None) as Hoffset.
  { rewrite handleUpdateFilters_lookup, lookup_insert_eq. reflexivity. }
  split; [assumption|]. split.
  - intros k Hk. rewrite !handleUpdateFilters_lookup.
    rewrite lookup_insert_ne by congruence. reflexivity.
  - rewrite (offset_derived _ _ _ _ _ Hv). unfold get.
    rewrite Htaken, Hoffset. reflexivity.
Qed.

Lemma filters_change_goes_to_first_page_witness :
  let queryParams : object :=
    {["type" := VString "USER"; "offset" := VString "40"]} in
  let pushed := Url.query (onFiltersChange (routerAt hostQuery) queryParams) in
  let router' := pushUrl (routerAt hostQuery)
                   (onFiltersChange (routerAt hostQuery) queryParams) in
  let v := variablesOf (Finite 0) (OneAccount {| slug := "ada" |})
             None None None in
  routerQuery router' = pushed
  /\ getQueryVariables unboundedInterval
       (fun _ : value => VUndefined) "ada" router' = Normal v
  /\ pushed !! "offset" = None
  /\ (forall k, k ≠ "offset"%string ->
        pushed !! k
        = Url.query (handleUpdateFilters (routerAt hostQuery) queryParams) !! k)
  /\ Variables.offset v = Finite 0.
Proof.
  assert (routerQuery
            (pushUrl (routerAt hostQuery)
               (onFiltersChange (routerAt hostQuery)
                  {["type" := VString "USER"; "offset" := VString "40"]}))
          = Url.query
              (onFiltersChange (routerAt hostQuery)
                 {["type" := VString "USER"; "offset" := VString "40"]}))
    as Htaken by reflexivity.
  assert (getQueryVariables unboundedInterval (fun _ : value => VUndefined)
            "ada"
            (pushUrl (routerAt hostQuery)
               (onFiltersChange (routerAt hostQuery)
                  {["type" := VString "USER"; "offset" := VString "40"]}))
          = Normal (variablesOf (Finite 0) (OneAccount {| slug := "ada" |})
                      None None None)) as Hv by reflexivity.
  split; [exact Htaken|]. split; [exact Hv|].
  exact (filters_change_goes_to_first_page unboundedInterval
           (fun _ : value => VUndefined) (routerAt hostQuery) _ _ "ada" _
           Htaken Hv).
Defined.

(** ** What the reset of the type changes *)

Lemma reset_query {Activity : Type}
    (isSupportedActivityTypeFilter : Account.t -> value -> bool)
    (router : Router.t) (data : option (Data.t Activity)) (url : Url.t) :
  resetTypeEffect isSupportedActivityTypeFilter router data = Some url ->
  Url.query url = omitBy (delete "type" (routerQuery router)) isFalsy.
Proof.
  intros Heffect. unfold resetTypeEffect in Heffect.
  destruct (data ≫= Data.account) as [account|]; [|discriminate].
  destruct (isSupportedActivityTypeFilter account
              (get (routerQuery router) "type")) eqn:Hsupported.
  { rewrite (changes_supported _ _ _ Hsupported) in Heffect. discriminate. }
  rewrite (changes_unsupported _ _ _ Hsupported) in Heffect.
  change ({["type" := VNull]} : object)
    with (<["type" := VNull]> (∅ : object)) in Heffect.
  rewrite isEmpty_insert in Heffect. injection Heffect as <-.
  cbn [Url.query handleUpdateFilters]. rewrite spread_twice.
  apply omitBy_clear_type.
Qed.

(** X5. Whatever the helper, the account and the parameters: the change set has
    no key but [type], and no value but [null]. When the effect navigates, the
    pushed query is the router's parameters without [type] and without falsy
    values, so that every other truthy parameter, [offset] included, is kept
    as it was. *)
Theorem reset_changes_only_type {Activity : Type}
    (isSupportedActivityTypeFilter : Account.t -> value -> bool)
    (router : Router.t) (data : option (Data.t Activity)) (url : Url.t) :
  resetTypeEffect isSupportedActivityTypeFilter router data = Some url ->
  (forall account queryParams k v,
      getChangesThatRequireUpdate isSupportedActivityTypeFilter account
        queryParams !! k = Some v ->
      k = "type"%string /\ v = VNull)
  /\ Url.query url = omitBy (delete "type" (routerQuery router)) isFalsy
  /\ Url.query url !! "type" = None
  /\ (forall k v, k ≠ "type"%string -> truthy v = true ->
        routerQuery router !! k = Some v -> Url.query url !! k = Some v).
Proof.
  intros Heffect.
  assert (forall account queryParams k v,
             getChangesThatRequireUpdate isSupportedActivityTypeFilter account
               queryParams !! k = Some v ->
             k = "type"%string /\ v = VNull) as Hchanges.
  { intros account queryParams k v. unfold getChangesThatRequireUpdate.
    destruct account as [account|]; [|rewrite lookup_empty; discriminate].
    destruct (negb _); [|rewrite lookup_empty; discriminate].
    destruct (decide (k = "type"%string)) as [->|Hk].
    - rewrite lookup_insert_eq. intros [= <-]. split; reflexivity.
    - rewrite lookup_insert_ne, lookup_empty by congruence. discriminate. }
  split; [exact Hchanges|].
  pose proof (reset_query _ _ _ _ Heffect) as Hquery.
  split; [exact Hquery|]. rewrite Hquery. split.
  - rewrite omitBy_lookup, lookup_delete_eq. reflexivity.
  - intros k v Hk Hv Hrouter.
    rewrite omitBy_lookup, lookup_delete_ne, Hrouter, Hv by congruence.
    reflexivity.
Qed.

Lemma reset_changes_only_type_witness :
  let url := {| Url.pathname := "/ada/admin/activity-log";
                Url.query := {["offset" := VString "20"]} |} in
  resetTypeEffect hostOnly (routerAt hostQuery) (loaded individual) = Some url
  /\ Url.query url !! "type" = None
  /\ (forall k v, k ≠ "type"%string -> truthy v = true ->
        routerQuery (routerAt hostQuery) !! k = Some v ->
        Url.query url !! k = Some v).
Proof.
  assert (resetTypeEffect hostOnly (routerAt hostQuery) (loaded individual)
          = Some {| Url.pathname := "/ada/admin/activity-log";
                    Url.query := {["offset" := VString "20"]} |})
    as Heffect by (vm_compute; reflexivity).
  split; [exact Heffect|].
  exact (proj2 (proj2 (reset_changes_only_type hostOnly _ _ _ Heffect))).
Defined.

(** ** The four ways to select accounts *)

Lemma split_length (sep : ascii) (s : string) :
  length (split sep s) = S (countChar sep s).
Proof.
  induction s as [|c rest IH]; simpl; [reflexivity|].
  destruct (Ascii.eqb c sep).
  - simpl. rewrite IH. reflexivity.
  - pose proof (split_not_nil sep rest) as Hne.
    destruct (split sep rest) as [|piece pieces]; [congruence|].
    simpl in IH |- *. exact IH.
Qed.

Lemma slug_of_references (slugs : list string) :
  slug <$> ((fun slug => {| slug := slug |}) <$> slugs) = slugs.
Proof.
  induction slugs as [|first rest IH]; [reflexivity|].
  cbn [fmap list_fmap] in IH |- *. rewrite IH. reflexivity.
Qed.

Section AccountSelection.
Context {Date FilterValues : Type}.
Variable parseDateInterval : value -> DateInterval Date.
Variable getActivityTypeFilterValuesFromKey : value -> FilterValues.

Local Abbreviation derived :=
  (getQueryVariables parseDateInterval getActivityTypeFilterValuesFromKey).

(** X6. Deriving the variables fails, with a [TypeError], exactly when the
    [account] parameter is an array, as the router delivers for a parameter
    that is repeated: an array is truthy and has no [split]. *)
Theorem variables_throw_on_repeated_account (accountSlug : string)
    (router : Router.t) :
  derived accountSlug router = TypeError
  <-> exists items, get (routerQuery router) "account" = VArray items.
Proof.
  unfold getQueryVariables. fold (routerQuery router).
  destruct (get (routerQuery router) "account") as [| |s|items]; simpl.
  - split; [discriminate|]. intros [items Hitems]. discriminate.
  - split; [discriminate|]. intros [items Hitems]. discriminate.
  - split.
    + repeat match goal with
             | |- context [if ?b then _ else _] => destruct b
             end; discriminate.
    + intros [items Hitems]. discriminate.
  - split; [|reflexivity]. intros _. exists items. reflexivity.
Qed.

(** X7. With no account selected (the parameter absent, [null] or empty) the
    activities are those of the target account alone: [account] is
    [{ slug: accountSlug }] and none of the three flags is set. *)
Theorem default_account_variables (accountSlug : string) (router : Router.t) :
  truthy (get (routerQuery router) "account") = false ->
  exists v,
    derived accountSlug router = Normal v
    /\ Variables.account v = OneAccount {| slug := accountSlug |}
    /\ Variables.includeChildrenAccounts v = None
    /\ Variables.includeHostedAccounts v = None
    /\ Variables.excludeParentAccount v = None.
Proof.
  intros Hfalsy. unfold getQueryVariables. fold (routerQuery router).
  destruct (get (routerQuery router) "account") as [| |s|items];
    try discriminate.
  - simpl. eexists. split; [reflexivity|]. simpl. auto.
  - simpl. eexists. split; [reflexivity|]. simpl. auto.
  - simpl in Hfalsy. apply negb_false_iff, String.eqb_eq in Hfalsy as ->.
    simpl. eexists. split; [reflexivity|]. simpl. auto.
Qed.

(** X8. Whatever the parameters, the flags of derived variables are [true] or
    [undefined], never [false]; [includeHostedAccounts] is never set together
    with [includeChildrenAccounts] or [excludeParentAccount];
    [excludeParentAccount] is set only with [includeChildrenAccounts] and the
    single target account; and a list of accounts always comes with
    [includeChildrenAccounts] alone. *)
Theorem account_flags_invariant (accountSlug : string) (router : Router.t)
    (v : Variables.t Date FilterValues) :
  derived accountSlug router = Normal v ->
  Variables.includeChildrenAccounts v ≠ Some false
  /\ Variables.includeHostedAccounts v ≠ Some false
  /\ Variables.excludeParentAccount v ≠ Some false
  /\ (Variables.includeHostedAccounts v = Some true ->
        Variables.includeChildrenAccounts v = None
        /\ Variables.excludeParentAccount v = None
        /\ Variables.account v = OneAccount {| slug := accountSlug |})
  /\ (Variables.excludeParentAccount v = Some true ->
        Variables.includeChildrenAccounts v = Some true
        /\ Variables.account v = OneAccount {| slug := accountSlug |})
  /\ (forall references,
        Variables.account v = ManyAccounts references ->
        Variables.includeChildrenAccounts v = Some true
        /\ Variables.includeHostedAccounts v = None
        /\ Variables.excludeParentAccount v = None).
Proof.
  unfold getQueryVariables.
  repeat match goal with
         | |- context [if ?b then _ else _] => destruct b
         | |- context [match ?x with _ => _ end] => destruct x
         end;
    intros Hv; inversion Hv; simpl;
    repeat split; try discriminate; intros; discriminate.
Qed.

(** X9. A list of accounts has one reference more than the parameter has commas,
    so it is never empty, and no slug in it holds a comma; nothing is trimmed
    or dropped, so a comma at either end or two in a row give an empty
    slug. *)
Theorem selected_accounts_count (accountSlug : string) (router : Router.t)
    (v : Variables.t Date FilterValues)
    (references : list AccountReferenceInput) :
  derived accountSlug router = Normal v ->
  Variables.account v = ManyAccounts references ->
  exists s,
    get (routerQuery router) "account" = VString s
    /\ length references = S (countChar "," s)
    /\ join "," (slug <$> references) = s
    /\ Forall (fun reference => occurs "," (slug reference) = false) references.
Proof.
  unfold getQueryVariables. fold (routerQuery router).
  destruct (get (routerQuery router) "account") as [| |s|items];
    repeat match goal with
           | |- context [if ?b then _ else _] => destruct b
           end;
    intros Hv; inversion Hv; simpl; try discriminate.
  intros [= <-]. exists s. split; [reflexivity|].
  destruct (join_split "," s) as [Hjoin Hfree].
  split; [|split].
  - rewrite length_fmap. apply split_length.
  - rewrite slug_of_references. exact Hjoin.
  - apply Forall_fmap. exact Hfree.
Qed.
End AccountSelection.

Lemma variables_throw_on_repeated_account_witness :
  let router := routerAt {["account" := VArray ["a"; "b"]]} in
  (exists items, get (routerQuery router) "account" = VArray items)
  /\ getQueryVariables unboundedInterval typeKey "ada" router = TypeError.
Proof.
  assert (exists items,
             get (routerQuery (routerAt {["account" := VArray ["a"; "b"]]}))
               "account" = VArray items) as Harray.
  { exists ["a"; "b"]%string. reflexivity. }
  split; [exact Harray|].
  exact (proj2 (variables_throw_on_repeated_account unboundedInterval typeKey
                  "ada" _) Harray).
Defined.

Lemma default_account_variables_witness :
  let router := routerAt {["account" := VString ""; "offset" := VString "20"]} in
  truthy (get (routerQuery router) "account") = false
  /\ exists v,
       getQueryVariables unboundedInterval typeKey "ada" router = Normal v
       /\ Variables.account v = OneAccount {| slug := "ada" |}
       /\ Variables.includeChildrenAccounts v = None
       /\ Variables.includeHostedAccounts v = None
       /\ Variables.excludeParentAccount v = None.
Proof.
  split; [reflexivity|].
  apply (default_account_variables unboundedInterval typeKey "ada"
           (routerAt {["account" := VString ""; "offset" := VString "20"]})).
  reflexivity.
Defined.

Lemma account_flags_invariant_witness :
  let router := routerAt {["account" := VString "__CHILDREN_ACCOUNTS__"]} in
  let v := variablesOf (Finite 0) (OneAccount {| slug := "ada" |})
             (Some true) (Some true) None in
  getQueryVariables unboundedInterval (fun _ : value => VUndefined) "ada" router
  = Normal v
  /\ (Variables.excludeParentAccount v = Some true ->
        Variables.includeChildrenAccounts v = Some true
        /\ Variables.account v = OneAccount {| slug := "ada" |}).
Proof.
  assert (getQueryVariables unboundedInterval (fun _ : value => VUndefined)
            "ada" (routerAt {["account" := VString "__CHILDREN_ACCOUNTS__"]})
          = Normal (variablesOf (Finite 0) (OneAccount {| slug := "ada" |})
                      (Some true) (Some true) None)) as Hv by reflexivity.
  split; [exact Hv|].
  destruct (account_flags_invariant unboundedInterval
              (fun _ : value => VUndefined) "ada" _ _ Hv)
    as (_ & _ & _ & _ & Hexclude & _).
  exact Hexclude.
Defined.

Lemma selected_accounts_count_witness :
  let router := routerAt {["account" := VString "a,,b,"]} in
  let references :=
    [{| slug := "a" |}; {| slug := "" |}; {| slug := "b" |}; {| slug := "" |}] in
  let v := variablesOf (Finite 0) (ManyAccounts references)
             (Some true) None None in
  getQueryVariables unboundedInterval (fun _ : value => VUndefined) "ada" router
  = Normal v
  /\ Variables.account v = ManyAccounts references
  /\ exists s,
       get (routerQuery router) "account" = VString s
       /\ length references = S (countChar "," s)
       /\ join "," (slug <$> references) = s
       /\ Forall (fun reference => occurs "," (slug reference) = false)
            references.
Proof.
  assert (getQueryVariables unboundedInterval (fun _ : value => VUndefined)
            "ada" (routerAt {["account" := VString "a,,b,"]})
          = Normal (variablesOf (Finite 0)
                      (ManyAccounts
                         [{| slug := "a" |}; {| slug := "" |};
                          {| slug := "b" |}; {| slug := "" |}])
                      (Some true) None None)) as Hv by reflexivity.
  split; [exact Hv|]. split; [reflexivity|].
  exact (selected_accounts_count unboundedInterval
           (fun _ : value => VUndefined) "ada" _ _ _ Hv eq_refl).
Defined.

(** ** The pagination and the rest of the tree *)

Section PaginationConsistency.
Context {Date FilterValues Activity ApolloError : Type}.
Variable parseDateInterval : value -> DateInterval Date.
Variable getActivityTypeFilterValuesFromKey : value -> FilterValues.
Variable isSupportedActivityTypeFilter : Account.t -> value -> bool.

Local Abbreviation rendering :=
  (ActivityLog (Activity := Activity) (ApolloError := ApolloError)
     parseDateInterval getActivityTypeFilterValuesFromKey
     isSupportedActivityTypeFilter).

(** X10. The component computes the offset twice, for the query and for the
    pagination: whenever variables are derived and the pagination is
    rendered, the pagination is given the offset and the limit that the query
    was given, and the total count of the result. *)
Theorem pagination_agrees_with_query (accountSlug : string)
    (router : Router.t) (result : QueryResult.t Activity ApolloError)
    (rendered : Render) (props : Pagination.t) :
  rendering accountSlug router result = Normal rendered ->
  View.pagination (view rendered) = Some props ->
  getQueryVariables parseDateInterval getActivityTypeFilterValuesFromKey
    accountSlug router = Normal (variables rendered)
  /\ Pagination.offset props = Variables.offset (variables rendered)
  /\ Pagination.limit props = Variables.limit (variables rendered)
  /\ activityTotalCount (QueryResult.data result)
     = Some (Pagination.total props)
  /\ Pagination.ignoredQueryParams props = ["slug"; "section"]%string.
Proof.
  intros Hrendered Hprops.
  destruct (ActivityLog_returns _ _ _ _ _ _ _ Hrendered) as (Hv & Hview & _).
  rewrite Hview in Hprops. cbn [View.pagination] in Hprops.
  split; [exact Hv|].
  rewrite (offset_derived _ _ _ _ _ Hv), (limit_is_fixed _ _ _ _ _ Hv).
  unfold renderPagination in Hprops.
  destruct (activityTotalCount (QueryResult.data result)) as [n|];
    [|discriminate].
  destruct (ACTIVITY_LIMIT <? n); [|discriminate].
  injection Hprops as <-. repeat split.
Qed.

(** X11. The pagination is rendered whatever the body of the tree is, under an
    error box and a loading placeholder too, but never with the "No activity
    yet" message; when the query has succeeded and returned nodes, it comes
    with the list of these nodes. *)
Theorem pagination_and_body (accountSlug : string) (router : Router.t)
    (result : QueryResult.t Activity ApolloError) (rendered : Render)
    (props : Pagination.t) :
  rendering accountSlug router result = Normal rendered ->
  let tree := view rendered in
  View.pagination tree = Some props ->
  View.body tree ≠ NoActivityYet
  /\ (forall nodes,
        QueryResult.error result = None ->
        QueryResult.loading result = false ->
        activityNodes (QueryResult.data result) = Some nodes ->
        View.body tree = ActivityLogContainer nodes)
  /\ (forall result',
        QueryResult.data result' = QueryResult.data result ->
        exists rendered',
          rendering accountSlug router result' = Normal rendered'
          /\ View.pagination (view rendered') = Some props).
Proof.
  intros Hrendered tree. subst tree.
  destruct (ActivityLog_returns _ _ _ _ _ _ _ Hrendered) as (Hv & -> & _).
  cbn [View.pagination View.body]. intros Hprops.
  unfold renderPagination in Hprops.
  destruct (activityTotalCount (QueryResult.data result)) as [n|] eqn:Hcount;
    [|discriminate].
  unfold ACTIVITY_LIMIT in Hprops.
  destruct (Z.ltb_spec 10 n) as [Hmore|]; [|discriminate].
  assert (forall nodes,
             QueryResult.error result = None ->
             QueryResult.loading result = false ->
             activityNodes (QueryResult.data result) = Some nodes ->
             renderBody result = ActivityLogContainer nodes) as Hlist.
  { intros nodes Herror Hloading Hnodes. unfold renderBody.
    rewrite Herror, Hloading, Hnodes, Hcount.
    destruct n; [lia|reflexivity|reflexivity]. }
  split; [|split].
  - unfold renderBody.
    destruct (QueryResult.error result); [discriminate|].
    destruct (QueryResult.loading result); [discriminate|].
    destruct (activityNodes (QueryResult.data result)); [|discriminate].
    rewrite Hcount. destruct n; [lia|discriminate|discriminate].
  - exact Hlist.
  - intros result' Hdata. unfold ActivityLog. rewrite Hv.
    eexists. split; [reflexivity|]. cbn [view View.pagination].
    unfold renderPagination.
    rewrite Hdata, Hcount. unfold ACTIVITY_LIMIT.
    destruct (Z.ltb_spec 10 n); [assumption|lia].
Qed.
End PaginationConsistency.

Lemma pagination_agrees_with_query_witness :
  let props := {| Pagination.offset := Finite 20; Pagination.total := 25;
                  Pagination.limit := 10;
                  Pagination.ignoredQueryParams := ["slug"; "section"] |} in
  exists rendered,
    ActivityLog unboundedInterval typeKey hostOnly "ada" (routerAt hostQuery)
      (resultWith 25) = Normal rendered
    /\ View.pagination (view rendered) = Some props
    /\ Pagination.offset props = Variables.offset (variables rendered)
    /\ Variables.offset (variables rendered) = Finite 20.
Proof.
  destruct (ActivityLog unboundedInterval typeKey hostOnly "ada"
              (routerAt hostQuery) (resultWith 25))
    as [rendered|] eqn:Hrendered;
    [|vm_compute in Hrendered; discriminate Hrendered].
  assert (View.pagination (view rendered)
          = Some {| Pagination.offset := Finite 20; Pagination.total := 25;
                    Pagination.limit := 10;
                    Pagination.ignoredQueryParams := ["slug"; "section"] |})
    as Hprops.
  { vm_compute in Hrendered. injection Hrendered as <-. reflexivity. }
  exists rendered. split; [reflexivity|]. split; [exact Hprops|].
  destruct (pagination_agrees_with_query unboundedInterval typeKey hostOnly
              "ada" _ _ _ _ Hrendered Hprops) as (_ & Hoffset & _).
  split; [exact Hoffset|]. rewrite <- Hoffset. reflexivity.
Defined.

Lemma pagination_and_body_witness :
  let props := {| Pagination.offset := Finite 20; Pagination.total := 25;
                  Pagination.limit := 10;
                  Pagination.ignoredQueryParams := ["slug"; "section"] |} in
  exists rendered,
    ActivityLog unboundedInterval typeKey hostOnly "ada" (routerAt hostQuery)
      (resultWith 25) = Normal rendered
    /\ View.pagination (view rendered) = Some props
    /\ View.body (view rendered) ≠ NoActivityYet.
Proof.
  destruct (ActivityLog unboundedInterval typeKey hostOnly "ada"
              (routerAt hostQuery) (resultWith 25))
    as [rendered|] eqn:Hrendered;
    [|vm_compute in Hrendered; discriminate Hrendered].
  assert (View.pagination (view rendered)
          = Some {| Pagination.offset := Finite 20; Pagination.total := 25;
                    Pagination.limit := 10;
                    Pagination.ignoredQueryParams := ["slug"; "section"] |})
    as Hprops.
  { vm_compute in Hrendered. injection Hrendered as <-. reflexivity. }
  exists rendered. split; [reflexivity|]. split; [exact Hprops|].
  exact (proj1 (pagination_and_body unboundedInterval typeKey hostOnly "ada"
                  _ _ _ _ Hrendered Hprops)).
Defined.

(** * Properties of the expense type filter *)

Section ExpenseTypeFilterProperties.
Context {Label Result Other : Type}.
Variable expenseTypes : list string.
Variable i18nExpenseType : string -> Label.

Local Abbreviation element :=
  (ExpenseTypeFilter (Other := Other) expenseTypes i18nExpenseType).
Local Abbreviation optionOf := (getOption i18nExpenseType).

(** X12. Whatever else the caller passes, the element gets the [value] and the
    [onChange] the component computes: the option of [value || 'ALL'], and a
    handler that reports the value of the chosen option to the caller's
    [onChange]. Every other attribute the caller passes reaches the element
    as it is, [options] and [inputId] included. *)
Theorem filter_attributes (onChange : string -> Result) (value : option string)
    (props : gmap string (attribute Label Result Other)) :
  let rendered := element onChange value props in
  rendered !! "value" = Some (Selected (optionOf (orAll value)))
  /\ (exists handle,
        rendered !! "onChange" = Some (Handler handle)
        /\ forall option, handle option = onChange (SelectOption.value option))
  /\ (forall k a,
        k ≠ "onChange"%string -> k ≠ "value"%string ->
        props !! k = Some a -> rendered !! k = Some a).
Proof.
  intros rendered. subst rendered. unfold ExpenseTypeFilter. cbn [foldr].
  split; [|split].
  - rewrite lookup_union_r.
    + rewrite lookup_insert_ne by discriminate.
      rewrite lookup_insert_ne by discriminate.
      apply lookup_insert_eq.
    + rewrite lookup_delete_ne by discriminate. apply lookup_delete_eq.
  - eexists. split.
    + rewrite lookup_union_r by apply lookup_delete_eq.
      rewrite lookup_insert_ne by discriminate.
      apply lookup_insert_eq.
    + reflexivity.
  - intros k a Hchange Hvalue Hk. apply lookup_union_Some_l.
    rewrite !lookup_delete_ne by congruence. assumption.
Qed.

(** X13. Unless the caller passes [options] of its own, the options are [ALL]
    followed by the expense types, in order. The option shown as selected is
    one of them exactly when [value] is missing, empty, [ALL] or an expense
    type; and whichever option is chosen, its value is [ALL] or an expense
    type. *)
Theorem selected_is_offered (onChange : string -> Result)
    (value : option string)
    (props : gmap string (attribute Label Result Other)) :
  props !! "options" = None ->
  exists options,
    element onChange value props !! "options" = Some (Options options)
    /\ SelectOption.value <$> options = "ALL"%string :: expenseTypes
    /\ (optionOf (orAll value) ∈ options
        <-> value = None \/ value = Some ""%string \/ value = Some "ALL"%string
            \/ exists key, value = Some key /\ key ∈ expenseTypes)
    /\ (forall option,
          option ∈ options ->
          SelectOption.value option ∈ "ALL"%string :: expenseTypes).
Proof.
  intros Hoptions. eexists. split.
  { unfold ExpenseTypeFilter. cbn [foldr]. rewrite lookup_union_r.
    - rewrite !lookup_insert_ne by discriminate. apply lookup_singleton_eq.
    - rewrite !lookup_delete_ne by discriminate. assumption. }
  assert (forall (key : string) (keys : list string),
             optionOf key ∈ optionOf <$> keys <-> key ∈ keys) as Hmember.
  { intros key keys. rewrite list_elem_of_fmap. split.
    - intros [other [Hsame Hother]].
      apply (f_equal SelectOption.value) in Hsame. simpl in Hsame.
      subst other. assumption.
    - intros Hkey. exists key. split; [reflexivity|assumption]. }
  split; [|split].
  - rewrite <- list_fmap_compose. cbn [fmap list_fmap].
    f_equal. induction expenseTypes as [|key keys IH]; [reflexivity|].
    cbn [list_fmap]. unfold compose at 1. simpl. f_equal. exact IH.
  - rewrite Hmember, elem_of_cons. unfold orAll. split.
    + intros [Hall | Hkey].
      * destruct value as [s|]; [|left; reflexivity].
        destruct (String.eqb_spec s ""); [subst; right; left; reflexivity|].
        subst s. right. right. left. reflexivity.
      * destruct value as [s|]; [|left; reflexivity].
        destruct (String.eqb_spec s ""); [subst; right; left; reflexivity|].
        right. right. right. exists s. split; [reflexivity|assumption].
    + intros [-> | [-> | [-> | [key [-> Hkey]]]]];
        try (left; reflexivity).
      destruct (String.eqb_spec key ""); [left; reflexivity|right; assumption].
  - intros option Hoption. apply list_elem_of_fmap in Hoption as [key [-> Hkey]].
    exact Hkey.
Qed.
End ExpenseTypeFilterProperties.

Lemma filter_attributes_witness :
  let props : gmap string (attribute string string unit) :=
    {["options" := Options []; "value" := Text "mine"]} in
  let rendered :=
    ExpenseTypeFilter twoExpenseTypes keyAsLabel keyAsLabel (Some "INVOICE"%string)
      props in
  props !! "options" = Some (Options [])
  /\ rendered !! "options" = Some (Options [])
  /\ rendered !! "value"
     = Some (Selected (getOption keyAsLabel "INVOICE")).
Proof.
  split; [reflexivity|].
  destruct (filter_attributes (Other := unit) twoExpenseTypes keyAsLabel
              keyAsLabel (Some "INVOICE"%string)
              {["options" := Options []; "value" := Text "mine"]})
    as (Hvalue & _ & Hpassed).
  split; [|exact Hvalue].
  apply Hpassed; [discriminate|discriminate|reflexivity].
Defined.

Lemma selected_is_offered_witness :
  let props : gmap string (attribute string string unit) := ∅ in
  props !! "options" = None
  /\ exists options,
       ExpenseTypeFilter twoExpenseTypes keyAsLabel keyAsLabel
         (Some "GRANT"%string) props !! "options" = Some (Options options)
       /\ SelectOption.value <$> options = "ALL"%string :: twoExpenseTypes
       /\ (getOption keyAsLabel (orAll (Some "GRANT"%string)) ∈ options
           <-> Some "GRANT"%string = None
               \/ Some "GRANT"%string = Some ""%string
               \/ Some "GRANT"%string = Some "ALL"%string
               \/ exists key,
                    Some "GRANT"%string = Some key /\ key ∈ twoExpenseTypes)
       /\ (forall option,
             option ∈ options ->
             SelectOption.value option ∈ "ALL"%string :: twoExpenseTypes).
Proof.
  split; [reflexivity|].
  apply (selected_is_offered (Other := unit) twoExpenseTypes keyAsLabel
           keyAsLabel (Some "GRANT"%string) ∅).
  reflexivity.
Defined.

(** * Properties of the fragments *)

Lemma defined_app (first second : Document) :
  defined (first ++ second) = defined first ++ defined second.
Proof. unfold defined. apply fmap_app. Qed.

Lemma ordered_app (first second : Document) :
  ordered first = true -> ordered second = true ->
  ordered (first ++ second) = true.
Proof.
  intros Hfirst Hsecond. induction first as [|fragment rest IH];
    [exact Hsecond|].
  cbn [ordered app] in Hfirst |- *.
  apply andb_true_iff in Hfirst as [Hspreads Hrest].
  apply andb_true_iff. split; [|apply IH; assumption].
  apply forallb_forall. intros name Hname.
  apply (proj1 (forallb_forall _ _) Hspreads) in Hname.
  apply bool_decide_eq_true in Hname. apply bool_decide_eq_true.
  rewrite defined_app. apply elem_of_app. left. assumption.
Qed.

Lemma ordered_concat (documents : list Document) :
  Forall (fun document => ordered document = true) documents ->
  ordered (concat documents) = true.
Proof.
  induction 1 as [|document rest Hdocument _ IH]; [reflexivity|].
  cbn [concat]. apply ordered_app; assumption.
Qed.

Lemma ordered_closed (document : Document) :
  ordered document = true -> closed document.
Proof.
  unfold closed. induction document as [|first rest IH];
    intros Hordered fragment name Hfragment Hname.
  - apply elem_of_nil in Hfragment. contradiction.
  - cbn [ordered] in Hordered.
    apply andb_true_iff in Hordered as [Hspreads Hrest].
    unfold defined. cbn [fmap list_fmap]. apply elem_of_cons. right.
    apply elem_of_cons in Hfragment as [-> | Hfragment].
    + apply list_elem_of_In in Hname.
      apply (proj1 (forallb_forall _ _) Hspreads) in Hname.
      apply bool_decide_eq_true in Hname. exact Hname.
    + exact (IH Hrest fragment name Hfragment Hname).
Qed.

Lemma elem_of_concat_documents (fragment : Fragment.t)
    (documents : list Document) :
  fragment ∈ concat documents
  <-> exists document, document ∈ documents /\ fragment ∈ document.
Proof.
  rewrite list_elem_of_In, in_concat. split.
  - intros [document [Hdocument Hfragment]]. exists document.
    rewrite !list_elem_of_In. split; assumption.
  - intros [document [Hdocument Hfragment]]. exists document.
    rewrite <- !list_elem_of_In. split; assumption.
Qed.

(** X14. The document of a template that writes one fragment and interpolates
    documents in which every spread is defined: every spread of the result is
    defined in it exactly when each fragment the written one spreads is
    either itself or defined by one of the interpolated documents. What an
    interpolated document needs it brings along, so that the fragments a
    template depends on only through another need not be interpolated
    again. *)
Theorem inclusion_closes_document (fragment : Fragment.t)
    (documents : list Document) :
  Forall closed documents ->
  defined (gqlV2 [fragment] documents)
  = Fragment.name fragment :: defined (concat documents)
  /\ (closed (gqlV2 [fragment] documents)
      <-> forall name,
            name ∈ fragmentSpreads fragment ->
            name = Fragment.name fragment
            \/ exists document,
                 document ∈ documents /\ name ∈ defined document).
Proof.
  intros Hclosed. split; [reflexivity|].
  assert (forall name,
             name ∈ defined (concat documents)
             <-> exists document,
                   document ∈ documents /\ name ∈ defined document)
    as Hdefined.
  { intros name. unfold defined. rewrite list_elem_of_fmap. split.
    - intros [other [-> Hother]].
      apply elem_of_concat_documents in Hother as [document [Hin Hother]].
      exists document. split; [assumption|].
      apply list_elem_of_fmap. exists other. split; [reflexivity|assumption].
    - intros [document [Hin Hname]].
      apply list_elem_of_fmap in Hname as [other [-> Hother]].
      exists other. split; [reflexivity|].
      apply elem_of_concat_documents. exists document. split; assumption. }
  unfold closed, gqlV2. split.
  - intros Hall name Hname.
    specialize (Hall fragment name).
    rewrite defined_app in Hall. cbn [app] in Hall.
    assert (name ∈ defined [fragment] ++ defined (concat documents)) as Hin.
    { apply Hall; [apply elem_of_cons; left; reflexivity|assumption]. }
    apply elem_of_app in Hin as [Hself | Hother].
    + left. unfold defined in Hself. cbn [fmap list_fmap] in Hself.
      apply list_elem_of_singleton in Hself. exact Hself.
    + right. apply Hdefined. exact Hother.
  - intros Hwritten other name Hother Hname.
    rewrite defined_app. apply elem_of_app.
    cbn [app] in Hother. apply elem_of_cons in Hother as [-> | Hother].
    + destruct (Hwritten name Hname) as [-> | Hinterpolated].
      * left. unfold defined. cbn [fmap list_fmap].
        apply elem_of_cons. left. reflexivity.
      * right. apply Hdefined. exact Hinterpolated.
    + right. apply Hdefined.
      apply elem_of_concat_documents in Hother as [document [Hin Hother]].
      exists document. split; [assumption|].
      rewrite Forall_forall in Hclosed.
      exact (Hclosed document Hin other name Hother Hname).
Qed.

(** X15. Each document the module exports defines every fragment spread in it,
    each once and before no fragment that spreads it, so that no fragment
    reaches itself: [ContributionFlowAccountFields] comes with
    [ContributionFlowHostFields], [OrderSuccessFragment] with
    [OrderSuccessHostFragment], and [OrderResponseFragment] with both
    [OrderSuccessFragment] and, through it, [OrderSuccessHostFragment]. *)
Theorem exported_fragments_complete :
  (closed contributionFlowAccountFieldsFragment
   /\ ordered contributionFlowAccountFieldsFragment = true
   /\ defined contributionFlowAccountFieldsFragment
      = ["ContributionFlowAccountFields"; "ContributionFlowHostFields"]%string)
  /\ (closed orderSuccessFragment
      /\ ordered orderSuccessFragment = true
      /\ defined orderSuccessFragment
         = ["OrderSuccessFragment"; "OrderSuccessHostFragment"]%string)
  /\ (closed orderResponseFragment
      /\ ordered orderResponseFragment = true
      /\ defined orderResponseFragment
         = ["OrderResponseFragment"; "OrderSuccessFragment";
            "OrderSuccessHostFragment"]%string).
Proof.
  assert (ordered contributionFlowAccountFieldsFragment = true) as Haccount
    by (vm_compute; reflexivity).
  assert (ordered orderSuccessFragment = true) as Hsuccess
    by (vm_compute; reflexivity).
  assert (ordered orderResponseFragment = true) as Hresponse
    by (vm_compute; reflexivity).
  repeat split; try assumption; try reflexivity;
    apply ordered_closed; assumption.
Qed.

Lemma inclusion_closes_document_witness :
  let written :=
    {| Fragment.name := "OrderResponseFragment";
       Fragment.typeCondition := "OrderWithPayment";
       Fragment.selectionSet :=
         [ scalar "guestToken";
           object_ "order" [scalar "id"; FragmentSpread "OrderSuccessFragment"];
           object_ "stripeError"
             [scalar "message"; scalar "account"; scalar "response"] ] |} in
  Forall closed [orderSuccessFragment]
  /\ defined (gqlV2 [written] [orderSuccessFragment])
     = Fragment.name written :: defined (concat [orderSuccessFragment])
  /\ (closed (gqlV2 [written] [orderSuccessFragment])
      <-> forall name,
            name ∈ fragmentSpreads written ->
            name = Fragment.name written
            \/ exists document,
                 document ∈ [orderSuccessFragment] /\ name ∈ defined document).
Proof.
  assert (Forall closed [orderSuccessFragment]) as Hclosed.
  { constructor; [|constructor]. apply ordered_closed. reflexivity. }
  split; [exact Hclosed|].
  exact (inclusion_closes_document _ _ Hclosed).
Defined.

(** * The reset of the type, render after render *)

(** X16. The effect has no guard of its own against repeating itself. With an
    account loaded and a type it does not support, and a router that takes
    over each pushed query: if the helper accepts an absent type, one
    navigation is issued and no more; if it rejects an absent type too, every
    render issues a navigation, as many as there are renders. *)
Theorem reset_repeats_unless_absent_type_is_supported {Activity : Type}
    (isSupportedActivityTypeFilter : Account.t -> value -> bool)
    (push : Router.t -> Url.t -> Router.t)
    (router : Router.t) (account : Account.t)
    (activities : option (Activities.t Activity)) (fuel : nat) :
  let data := Some {| Data.account := Some account;
                      Data.activities := activities |} in
  (forall r url,
      resetTypeEffect isSupportedActivityTypeFilter r data = Some url ->
      routerQuery (push r url) = omit (Url.query url) ["slug"; "section"]) ->
  isSupportedActivityTypeFilter account (get (routerQuery router) "type")
    = false ->
  length (navigations isSupportedActivityTypeFilter push (S fuel) router data)
  = if isSupportedActivityTypeFilter account VUndefined then 1%nat else S fuel.
Proof.
  intros data Hpush Hunsupported. subst data.
  set (data := Some {| Data.account := Some account;
                       Data.activities := activities |}) in *.
  assert (forall r,
             isSupportedActivityTypeFilter account (get (routerQuery r) "type")
               = false ->
             exists url,
               resetTypeEffect isSupportedActivityTypeFilter r data = Some url
               /\ get (routerQuery (push r url)) "type" = VUndefined)
    as Hstep.
  { intros r Hr.
    pose proof (effect_unsupported isSupportedActivityTypeFilter r
                  {| Data.account := Some account;
                     Data.activities := activities |} account eq_refl Hr)
      as Heffect.
    fold data in Heffect. eexists. split; [exact Heffect|].
    pose proof (reset_query _ _ _ _ Heffect) as Hquery.
    unfold get. rewrite (Hpush _ _ Heffect), Hquery, pushed_query_omit.
    rewrite omitBy_lookup, lookup_delete_eq. reflexivity. }
  destruct (isSupportedActivityTypeFilter account VUndefined) eqn:Habsent.
  - destruct (Hstep router Hunsupported) as (url & Heffect & Htype).
    cbn [navigations]. rewrite Heffect. cbn [length]. f_equal.
    destruct fuel as [|fuel]; [reflexivity|]. cbn [navigations].
    subst data.
    rewrite (effect_supported isSupportedActivityTypeFilter (push router url)
               {| Data.account := Some account;
                  Data.activities := activities |} account eq_refl);
      [reflexivity|].
    rewrite Htype. exact Habsent.
  - revert router Hunsupported.
    induction fuel as [|fuel IH]; intros router Hunsupported;
      destruct (Hstep router Hunsupported) as (url & Heffect & Htype).
    + cbn [navigations]. rewrite Heffect. reflexivity.
    + change (navigations isSupportedActivityTypeFilter push (S (S fuel))
                router data)
        with (match resetTypeEffect isSupportedActivityTypeFilter router data
              with
              | Some url =>
                  url :: navigations isSupportedActivityTypeFilter push
                           (S fuel) (push router url) data
              | None => []
              end).
      rewrite Heffect. cbn [length]. f_equal.
      apply IH. rewrite Htype. exact Habsent.
Qed.

Lemma reset_repeats_unless_absent_type_is_supported_witness :
  let rejectAll := fun (_ : Account.t) (_ : value) => false in
  (forall r url,
      resetTypeEffect rejectAll r (loaded individual) = Some url ->
      routerQuery (pushUrl r url) = omit (Url.query url) ["slug"; "section"])
  /\ rejectAll individual (get (routerQuery (routerAt hostQuery)) "type") = false
  /\ length (navigations rejectAll pushUrl 7 (routerAt hostQuery)
               (loaded individual)) = 7%nat.
Proof.
  split; [intros r url _; reflexivity|]. split; [reflexivity|].
  apply (reset_repeats_unless_absent_type_is_supported
           (fun (_ : Account.t) (_ : value) => false) pushUrl
           (routerAt hostQuery) individual None 6);
    [intros r url _; reflexivity|reflexivity].
Defined.

(** * The parameters the query depends on *)

(** X17. Of the router, the derived variables read four parameters and nothing
    else: two routers whose [offset], [period], [type] and [account] read the
    same give the same variables, whatever their paths and their other
    parameters. *)
Theorem variables_depend_on_four_parameters {Date FilterValues : Type}
    (parseDateInterval : value -> DateInterval Date)
    (getActivityTypeFilterValuesFromKey : value -> FilterValues)
    (accountSlug : string) (router1 router2 : Router.t) :
  (forall k,
      k ∈ ["offset"; "period"; "type"; "account"]%string ->
      get (Router.query router1) k = get (Router.query router2) k) ->
  getQueryVariables parseDateInterval getActivityTypeFilterValuesFromKey
    accountSlug router1
  = getQueryVariables parseDateInterval getActivityTypeFilterValuesFromKey
      accountSlug router2.
Proof.
  intros Hsame.
  assert (forall k,
             k ∈ ["offset"; "period"; "type"; "account"]%string ->
             get (omit (Router.query router1) ["slug"; "section"]) k
             = get (omit (Router.query router2) ["slug"; "section"]) k) as Hread.
  { intros k Hk. rewrite !get_omit_route; [apply Hsame; exact Hk| | | |];
      intros ->; repeat (apply elem_of_cons in Hk as [Hk|Hk]; [discriminate|]);
      apply elem_of_nil in Hk; contradiction. }
  unfold getQueryVariables.
  rewrite (Hread "offset"%string), (Hread "period"%string),
    (Hread "type"%string), (Hread "account"%string);
    [reflexivity| | | |];
    repeat constructor.
Qed.

Lemma variables_depend_on_four_parameters_witness :
  let router1 := routerAt {["offset" := VString "20"; "tab" := VString "a"]} in
  let router2 :=
    {| Router.asPath := "/bob/admin"; Router.query := {["offset" := VString "20"]} |} in
  (forall k,
      k ∈ ["offset"; "period"; "type"; "account"]%string ->
      get (Router.query router1) k = get (Router.query router2) k)
  /\ getQueryVariables unboundedInterval typeKey "ada" router1
     = getQueryVariables unboundedInterval typeKey "ada" router2.
Proof.
  assert (forall k,
             k ∈ ["offset"; "period"; "type"; "account"]%string ->
             get (Router.query
                    (routerAt {["offset" := VString "20"; "tab" := VString "a"]}))
               k
             = get (Router.query
                      {| Router.asPath := "/bob/admin";
                         Router.query := {["offset" := VString "20"]} |}) k)
    as Hsame.
  { intros k Hk.
    repeat (apply elem_of_cons in Hk as [-> | Hk]; [reflexivity|]).
    apply elem_of_nil in Hk. contradiction. }
  split; [exact Hsame|].
  exact (variables_depend_on_four_parameters unboundedInterval typeKey "ada"
           _ _ Hsame).
Defined.

(** A repeated [account] parameter makes the component throw, whatever the
    result would be: nothing is rendered and nothing is pushed. *)
Example repeated_account_renders_nothing :
  ActivityLog unboundedInterval typeKey hostOnly "ada"
    (routerAt {["account" := VArray ["a"; "b"]]}) (resultWith 25)
  = TypeError.
Proof. reflexivity. Qed.
